(** * car_club: the admin session manager and the header/footer loader

    A shallow embedding of [src/js/admin-session.js] (class
    [AdminSessionManager]) and of the component loader that follows it
    ([loadHTMLComponent], [loadAllComponents]).

    The browser is modelled as explicit state: [localStorage] is a finite
    map from keys to strings, the document is a list of elements in
    document order, and the platform services whose answers the script
    cannot predict ([Date.now], [confirm], [JSON.parse], [JSON.stringify],
    [fetch], whether a [setItem] call hits the quota) are oracles gathered
    in a [Platform] record. *)

From Stdlib Require Import ZArith Lia Bool Ascii String.
From stdpp Require Import base gmap strings list pretty.

Open Scope Z_scope.
Open Scope string_scope.

(** ** JavaScript values

    The data that reaches the session manager: user objects handed to
    [createSession] and whatever [JSON.parse] returns.  Numbers are
    integers (millisecond timestamps); arrays and functions are left out.
    A value describes the properties the script reads.  Whether the object
    behind it can be serialised (it cannot when it refers to itself or
    holds a BigInt) is for [JSON_stringify] below to tell. *)

#[warnings="-register-all"]
Inductive JsValue : Type :=
| JUndefined
| JNull
| JBool (b : bool)
| JNum (n : Z)
| JStr (s : string)
| JObj (fields : gmap string JsValue).

(** [ToBoolean]: what [!v] and [if (v)] look at. *)
Definition truthy (v : JsValue) : bool :=
  match v with
  | JUndefined | JNull => false
  | JBool b => b
  | JNum n => negb (n =? 0)%Z
  | JStr s => negb (String.eqb s "")
  | JObj _ => true
  end.

(** [v.k] for a [v] that is neither [null] nor [undefined]; none of the
    property names the script reads exists on a primitive's prototype. *)
Definition getProp (v : JsValue) (k : string) : JsValue :=
  match v with
  | JObj fields => default JUndefined (fields !! k)
  | _ => JUndefined
  end.

(** [a || b] *)
Definition jsOr (a b : JsValue) : JsValue := if truthy a then a else b.

(** The exceptions that can leave a method of the manager uncaught. *)
Inductive JsError : Type :=
| RangeError   (* maximum call stack size exceeded *)
| TypeError.   (* property assignment on a primitive in strict code *)

(** [v.k = x] in strict-mode code (class bodies are strict). *)
Definition setProp (v : JsValue) (k : string) (x : JsValue) : JsError + JsValue :=
  match v with
  | JObj fields => inr (JObj (<[k := x]> fields))
  | _ => inl TypeError
  end.

(** ** DOM elements

    The document is the list of the page's own elements, in document
    order; an element the script writes to holds none of the others.
    Markup written to an element through [innerHTML] is kept as the text
    that was written: the elements the parser would make of it are not
    part of the document, so a lookup by id finds the page's own elements
    only.  This describes a page on which the injected markup brings none
    of the ids the script looks up. *)

Inductive Content : Type :=
| Html (markup : string)   (* last written through [innerHTML] *)
| Text (text : string).    (* last written through [textContent] *)

Record Element : Type := mkElement {
  elemId : string;
  classList : list string;
  display : string;          (* [style.display] *)
  content : Content
}.

(** ** Fetch *)

Inductive BodyRead : Type :=
| BodyText (text : string)
| BodyError (message : string).   (* [response.text()] rejects *)

Inductive FetchOutcome : Type :=
| NetworkError (message : string)                 (* [fetch] rejects *)
| Response (status : Z) (statusText : string) (body : BodyRead).

(** ** Platform oracles *)

Record Platform : Type := mkPlatform {
  dateNow : nat -> Z;                 (* the n-th reading of [Date.now()] *)
  confirmAnswer : nat -> bool;        (* the answer to the n-th [confirm] *)
  setItemOk : nat -> bool;            (* false: the n-th [setItem] throws *)
  JSON_parse : string -> option JsValue;   (* [None]: SyntaxError *)
  JSON_stringify : JsValue -> option string;
                                      (* [None]: TypeError, the object behind
                                         the value has a cycle or a BigInt *)
  StringToNumber : string -> option Z;     (* [None]: NaN *)
  fetch : string -> FetchOutcome
}.

(** [ToNumber]; [None] stands for NaN.  A plain data object converts to
    NaN. *)
Definition toNumber (P : Platform) (v : JsValue) : option Z :=
  match v with
  | JUndefined => None
  | JNull => Some 0
  | JBool b => Some (if b then 1 else 0)
  | JNum n => Some n
  | JStr s => StringToNumber P s
  | JObj _ => None
  end.

(** [now >= v] for a number [now]. *)
Definition jsGe (P : Platform) (now : Z) (v : JsValue) : bool :=
  match toNumber P v with
  | Some n => (n <=? now)%Z
  | None => false
  end.

(** [now - v > limit] for numbers [now] and [limit]. *)
Definition jsElapsedGt (P : Platform) (now : Z) (v : JsValue) (limit : Z) : bool :=
  match toNumber P v with
  | Some n => (limit <? now - n)%Z
  | None => false
  end.

(** What assigning [v] to [textContent] displays. *)
Definition toDisplayString (v : JsValue) : string :=
  match v with
  | JUndefined | JNull => ""
  | JBool b => if b then "true" else "false"
  | JNum n => pretty n
  | JStr s => s
  | JObj _ => "[object Object]"
  end.

(** ** State

    [Manager] holds the fields of the [AdminSessionManager] instance,
    [Browser] the part of the page the script reads and writes. *)

Record Manager : Type := mkManager {
  currentUser : JsValue;
  sessionExpiry : JsValue;
  lastActivity : JsValue;
  isInitialized : bool
}.

Record Browser : Type := mkBrowser {
  localStorage : gmap string string;
  clockReads : nat;             (* calls of [Date.now()] so far *)
  prompts : nat;                (* [confirm] dialogs shown so far *)
  writes : nat;                 (* calls of [localStorage.setItem] so far *)
  document : list Element;
  pathname : string;            (* [window.location.pathname] *)
  navigation : option string    (* last value assigned to [window.location.href] *)
}.

Record State : Type := mkState {
  this : Manager;
  browser : Browser
}.

Definition withThis (f : Manager -> Manager) (s : State) : State :=
  mkState (f (this s)) (browser s).

Definition withBrowser (f : Browser -> Browser) (s : State) : State :=
  mkState (this s) (f (browser s)).

Definition setCurrentUser (v : JsValue) (m : Manager) : Manager :=
  mkManager v (sessionExpiry m) (lastActivity m) (isInitialized m).

Definition setSessionExpiry (v : JsValue) (m : Manager) : Manager :=
  mkManager (currentUser m) v (lastActivity m) (isInitialized m).

Definition setLastActivity (v : JsValue) (m : Manager) : Manager :=
  mkManager (currentUser m) (sessionExpiry m) v (isInitialized m).

Definition setIsInitialized (b : bool) (m : Manager) : Manager :=
  mkManager (currentUser m) (sessionExpiry m) (lastActivity m) b.

Definition setLocalStorage (m : gmap string string) (b : Browser) : Browser :=
  mkBrowser m (clockReads b) (prompts b) (writes b) (document b) (pathname b)
            (navigation b).

Definition setDocument (d : list Element) (b : Browser) : Browser :=
  mkBrowser (localStorage b) (clockReads b) (prompts b) (writes b) d (pathname b)
            (navigation b).

Definition setNavigation (h : string) (b : Browser) : Browser :=
  mkBrowser (localStorage b) (clockReads b) (prompts b) (writes b) (document b)
            (pathname b) (Some h).

(** Configuration constants of the constructor. *)
Definition SESSION_KEY : string := "model_a_admin_session".
Definition SESSION_TIMEOUT : Z := 24 * 60 * 60 * 1000.
Definition ACTIVITY_TIMEOUT : Z := 30 * 60 * 1000.

(** *** Platform calls *)

Definition Date_now (P : Platform) (s : State) : Z * State :=
  (dateNow P (clockReads (browser s)),
   withBrowser (fun b => mkBrowser (localStorage b) (S (clockReads b)) (prompts b)
                           (writes b) (document b) (pathname b) (navigation b)) s).

Definition confirm (P : Platform) (s : State) : bool * State :=
  (confirmAnswer P (prompts (browser s)),
   withBrowser (fun b => mkBrowser (localStorage b) (clockReads b) (S (prompts b))
                           (writes b) (document b) (pathname b) (navigation b)) s).

Definition getItem (k : string) (s : State) : option string :=
  localStorage (browser s) !! k.

(** [setItem] either stores the value or throws (quota exceeded); the
    boolean tells which. *)
Definition setItem (P : Platform) (k v : string) (s : State) : bool * State :=
  let ok := setItemOk P (writes (browser s)) in
  (ok,
   withBrowser (fun b => mkBrowser (if ok then <[k := v]> (localStorage b)
                                    else localStorage b)
                           (clockReads b) (prompts b) (S (writes b)) (document b)
                           (pathname b) (navigation b)) s).

Definition removeItem (k : string) (s : State) : State :=
  withBrowser (fun b => setLocalStorage (delete k (localStorage b)) b) s.

(** *** Results of methods that may end in an uncaught exception *)

Inductive Completion (A : Type) : Type :=
| Normal (a : A) (s : State)
| Abrupt (e : JsError) (s : State).

Arguments Normal {A} a s.
Arguments Abrupt {A} e s.

Definition bind {A B : Type} (c : Completion A) (k : A -> State -> Completion B)
  : Completion B :=
  match c with
  | Normal a s => k a s
  | Abrupt e s => Abrupt e s
  end.

(** ** Strings: [split('/').pop()] and [includes] *)

Fixpoint splitOn (sep : ascii) (s : string) : list string :=
  match s with
  | EmptyString => [EmptyString]
  | String c r =>
      match splitOn sep r with
      | [] => [String c EmptyString]
      | seg :: segs =>
          if Ascii.eqb c sep then EmptyString :: seg :: segs
          else String c seg :: segs
      end
  end.

Definition pop (l : list string) : string := List.last l EmptyString.

Fixpoint includes (needle hay : string) : bool :=
  String.prefix needle hay ||
  match hay with
  | EmptyString => false
  | String _ rest => includes needle rest
  end.

(** ** The document *)

(** [document.getElementById]: a reference to the first element with that
    id, as its position in document order.  The empty string is the id of
    no element: [getElementById('')] is null. *)
Fixpoint getElementById (i : string) (d : list Element) : option nat :=
  match d with
  | [] => None
  | e :: rest =>
      if negb (String.eqb i "") && String.eqb (elemId e) i then Some 0%nat
      else S <$> getElementById i rest
  end.

Definition classAdd (c : string) (e : Element) : Element :=
  mkElement (elemId e)
            (if existsb (String.eqb c) (classList e) then classList e
             else classList e ++ [c])
            (display e) (content e).

Definition classRemove (c : string) (e : Element) : Element :=
  mkElement (elemId e) (List.filter (fun x => negb (String.eqb c x)) (classList e))
            (display e) (content e).

Definition setDisplay (v : string) (e : Element) : Element :=
  mkElement (elemId e) (classList e) v (content e).

Definition setInnerHTML (h : string) (e : Element) : Element :=
  mkElement (elemId e) (classList e) (display e) (Html h).

Definition setTextContent (t : string) (e : Element) : Element :=
  mkElement (elemId e) (classList e) (display e) (Text t).

Definition hasClass (c : string) (e : Element) : bool :=
  existsb (String.eqb c) (classList e).

(** ** class AdminSessionManager *)

Module AdminSessionManager.
Section Methods.

Variable P : Platform.

(** [showLoginForm()] *)
Definition showLoginForm (s : State) : State :=
  let d := document (browser s) in
  match getElementById "loginScreen" d, getElementById "adminDashboard" d with
  | Some loginScreen, Some adminDashboard =>
      let d1 := alter (fun e => setDisplay "block" (classRemove "hidden" e))
                      loginScreen d in
      let d2 := alter (fun e => setDisplay "none" (classAdd "hidden" e))
                      adminDashboard d1 in
      withBrowser (setDocument d2) s
  | _, _ => s
  end.

(** [updateUserDisplay()] *)
Definition updateUserDisplay (s : State) : State :=
  let user := currentUser (this s) in
  if truthy user then
    let name := toDisplayString (jsOr (getProp user "full_name")
                                      (getProp user "username")) in
    let d := document (browser s) in
    let d1 := match getElementById "currentUser" d with
              | Some currentUserElement =>
                  alter (setTextContent name) currentUserElement d
              | None => d
              end in
    let d2 := List.map (fun e => if hasClass "admin-user-name" e
                                 then setTextContent name e else e) d1 in
    withBrowser (setDocument d2) s
  else s.

(** [showAdminContent()] *)
Definition showAdminContent (s : State) : State :=
  let d := document (browser s) in
  match getElementById "loginScreen" d, getElementById "adminDashboard" d with
  | Some loginScreen, Some adminDashboard =>
      let d1 := alter (fun e => setDisplay "none" (classAdd "hidden" e))
                      loginScreen d in
      let d2 := alter (fun e => setDisplay "block" (classRemove "hidden" e))
                      adminDashboard d1 in
      updateUserDisplay (withBrowser (setDocument d2) s)
  | _, _ => s
  end.

(** [clearSession()].  [removeItem] does not throw, so the [catch] around
    it has nothing to handle. *)
Definition clearSession (s : State) : State :=
  let s1 := removeItem SESSION_KEY s in
  let s2 := withThis (setCurrentUser JNull) s1 in
  let s3 := withThis (setSessionExpiry JNull) s2 in
  let (now, s4) := Date_now P s3 in
  withThis (setLastActivity (JNum now)) s4.

(** [createSession(user)].  The whole body stands in a [try]: when
    [JSON.stringify] throws, [setItem] is not reached, and when either
    throws the [catch] block returns false. *)
Definition createSession (user : JsValue) (s : State) : bool * State :=
  if negb (truthy user) || negb (truthy (getProp user "username"))
     || negb (truthy (getProp user "id"))
  then (false, s)
  else
    let (loginTime, s1) := Date_now P s in
    let (t2, s2) := Date_now P s1 in
    let expiry := t2 + SESSION_TIMEOUT in
    let (activity, s3) := Date_now P s2 in
    let sessionData :=
      JObj (<["user" := user]>
            (<["loginTime" := JNum loginTime]>
             (<["expiry" := JNum expiry]>
              (<["lastActivity" := JNum activity]> ∅)))) in
    match JSON_stringify P sessionData with
    | None => (false, s3)
    | Some text =>
        let (stored, s4) := setItem P SESSION_KEY text s3 in
        if stored then
          let s5 := withThis (setCurrentUser user) s4 in
          let s6 := withThis (setSessionExpiry (getProp sessionData "expiry")) s5 in
          let s7 := withThis (setLastActivity (getProp sessionData "lastActivity")) s6 in
          (true, s7)
        else (false, s4)
    end.

(** [isSessionValid(sessionData)] *)
Definition isSessionValid (sessionData : JsValue) (s : State) : bool * State :=
  if negb (truthy sessionData) || negb (truthy (getProp sessionData "user"))
     || negb (truthy (getProp sessionData "expiry"))
  then (false, s)
  else
    let (now, s1) := Date_now P s in
    if jsGe P now (getProp sessionData "expiry") then (false, s1)
    else if negb (truthy (getProp (getProp sessionData "user") "username"))
            || negb (truthy (getProp (getProp sessionData "user") "id"))
    then (false, s1)
    else (true, s1).

(** [getStoredSession()] *)
Definition getStoredSession (s : State) : JsValue * State :=
  match getItem SESSION_KEY s with
  | None => (JNull, s)
  | Some sessionStr =>
      if String.eqb sessionStr "" then (JNull, s)
      else match JSON_parse P sessionStr with
           | Some v => (v, s)
           | None => (JNull, removeItem SESSION_KEY s)
           end
  end.

(** [logout(redirect)] *)
Definition logout (redirect : bool) (s : State) : State :=
  let s1 := clearSession s in
  if redirect && negb (includes "admin-dashboard.html" (pathname (browser s1)))
  then withBrowser (setNavigation "admin-dashboard.html") s1
  else showLoginForm s1.

(** [isAuthenticated], [showInactivityWarning] and [updateActivity] call
    one another.  The two callees are written over the authentication
    check they call back into; [isAuthenticated] ties the knot.  [depth]
    is the number of stack frames of [isAuthenticated] the engine still
    has room for: at zero the call throws a RangeError. *)

(** [updateActivity()] *)
Definition updateActivityWith (auth : State -> Completion bool) (s : State)
  : Completion unit :=
  bind (auth s) (fun authenticated s1 =>
    if authenticated then
      let (now, s2) := Date_now P s1 in
      let s3 := withThis (setLastActivity (JNum now)) s2 in
      let (sessionData, s4) := getStoredSession s3 in
      if truthy sessionData then
        match setProp sessionData "lastActivity" (lastActivity (this s4)) with
        | inl e => Abrupt e s4
        | inr data1 =>
            let (now', s5) := Date_now P s4 in
            match setProp data1 "expiry" (JNum (now' + SESSION_TIMEOUT)) with
            | inl e => Abrupt e s5
            | inr data2 =>
                let s6 := withThis (setSessionExpiry (getProp data2 "expiry")) s5 in
                match JSON_stringify P data2 with
                | None => Normal tt s6
                | Some text =>
                    let (_, s7) := setItem P SESSION_KEY text s6 in
                    Normal tt s7
                end
            end
        end
      else Normal tt s4
    else Normal tt s1).

(** [showInactivityWarning()] *)
Definition showInactivityWarningWith (auth : State -> Completion bool) (s : State)
  : Completion unit :=
  let (shouldExtend, s1) := confirm P s in
  if shouldExtend then updateActivityWith auth s1
  else Normal tt (logout false s1).

(** [isAuthenticated()] *)
Fixpoint isAuthenticated (depth : nat) (s : State) : Completion bool :=
  match depth with
  | O => Abrupt RangeError s
  | S depth' =>
      if negb (truthy (currentUser (this s)))
         || negb (truthy (sessionExpiry (this s)))
      then Normal false s
      else
        let (now, s1) := Date_now P s in
        if jsGe P now (sessionExpiry (this s1)) then Normal false (clearSession s1)
        else
          let (now', s2) := Date_now P s1 in
          if jsElapsedGt P now' (lastActivity (this s2)) ACTIVITY_TIMEOUT then
            bind (showInactivityWarningWith (isAuthenticated depth') s2)
                 (fun _ s3 => Normal false s3)
          else Normal true s2
  end.

Definition updateActivity (depth : nat) : State -> Completion unit :=
  updateActivityWith (isAuthenticated depth).

Definition showInactivityWarning (depth : nat) : State -> Completion unit :=
  showInactivityWarningWith (isAuthenticated depth).

(** [getCurrentUser()] *)
Definition getCurrentUser (depth : nat) (s : State) : Completion JsValue :=
  bind (isAuthenticated depth s) (fun authenticated s1 =>
    if authenticated then Normal (currentUser (this s1)) s1
    else Normal JNull s1).

(** [initializeSession()] *)
Definition initializeSession (depth : nat) (s : State) : Completion bool :=
  if isInitialized (this s) then isAuthenticated depth s
  else
    let (savedSession, s1) := getStoredSession s in
    let (valid, s2) := if truthy savedSession then isSessionValid savedSession s1
                       else (false, s1) in
    if valid then
      let s3 := withThis (setCurrentUser (getProp savedSession "user")) s2 in
      let s4 := withThis (setSessionExpiry (getProp savedSession "expiry")) s3 in
      let (activity, s5) :=
        if truthy (getProp savedSession "lastActivity")
        then (getProp savedSession "lastActivity", s4)
        else let (now, s4') := Date_now P s4 in (JNum now, s4') in
      let s6 := withThis (setLastActivity activity) s5 in
      bind (updateActivity depth s6) (fun _ s7 =>
        Normal true (withThis (setIsInitialized true) s7))
    else
      let s3 := clearSession s2 in
      Normal false (withThis (setIsInitialized true) s3).

(** [refreshSession()] *)
Definition refreshSession (depth : nat) (s : State) : Completion bool :=
  initializeSession depth (withThis (setIsInitialized false) s).

(** [new AdminSessionManager()] on a freshly loaded page.  The listeners
    that [setupActivityTracking] registers run later and are not part of
    the construction. *)
Definition construct (depth : nat) (b : Browser) : Completion bool :=
  let s0 := mkState (mkManager JNull JNull JUndefined false) b in
  let (now, s1) := Date_now P s0 in
  let s2 := withThis (setLastActivity (JNum now)) s1 in
  initializeSession depth s2.

(** [requiresAuthentication()] *)
Definition adminPages : list string :=
  [ "admin-dashboard.html"; "admin-events.html"; "admin-news.html";
    "admin-members.html"; "admin-photos.html"; "admin-users.html";
    "admin-settings.html" ].

Definition requiresAuthentication (s : State) : bool :=
  let currentPage := pop (splitOn "/" (pathname (browser s))) in
  existsb (String.eqb currentPage) adminPages
  || includes "/admin" (pathname (browser s)).

(** [protectPage()] *)
Definition protectPage (depth : nat) (s : State) : Completion bool :=
  if negb (requiresAuthentication s) then Normal true s
  else
    bind (isAuthenticated depth s) (fun authenticated s1 =>
      if authenticated then Normal true (showAdminContent s1)
      else Normal false (showLoginForm s1)).

(** [hasPermission(requiredRole)] *)
Definition hasPermission (depth : nat) (requiredRole : string) (s : State)
  : Completion bool :=
  bind (isAuthenticated depth s) (fun authenticated s1 =>
    if negb authenticated then Normal false s1
    else
      let role := getProp (currentUser (this s1)) "role" in
      Normal (match role with
              | JStr r => String.eqb r requiredRole || String.eqb r "admin"
              | _ => false
              end) s1).

(** [handleActivity] of [setupActivityTracking()].  [activityThrottle] is
    the flag of its closure; the result is the new value of the flag.  The
    timer that resets the flag is started exactly when the flag is set. *)
Definition handleActivity (depth : nat) (activityThrottle : bool) (s : State)
  : Completion bool :=
  bind (isAuthenticated depth s) (fun authenticated s1 =>
    if authenticated && negb activityThrottle then
      bind (updateActivity depth s1) (fun _ s2 => Normal true s2)
    else Normal activityThrottle s1).

End Methods.
End AdminSessionManager.

(** ** The header and footer component loader *)

Module ComponentLoader.

Definition headerPath : string := "header.html".
Definition footerPath : string := "footer.html".
Definition headerContainerId : string := "header-container".
Definition footerContainerId : string := "footer-container".

Definition quote : string := String "034"%char EmptyString.
Definition newline : string := String "010"%char EmptyString.
Definition spaces (n : nat) : string := String.concat "" (repeat " " n).

(** The placeholder shown while the request is in flight. *)
Definition loadingMarkup (componentName : string) : string :=
  "<div class=" ++ quote ++ "loading-component" ++ quote ++ ">Loading "
  ++ componentName ++ "...</div>".

(** The fallback markup of the [catch] block. *)
Definition errorMarkup (componentName message : string) : string :=
  newline
  ++ spaces 16 ++ "<div class=" ++ quote ++ "component-error" ++ quote ++ ">"
  ++ newline
  ++ spaces 20 ++ "<p>Unable to load " ++ componentName
  ++ ". Please refresh the page.</p>" ++ newline
  ++ spaces 20 ++ "<small>Error: " ++ message ++ "</small>" ++ newline
  ++ spaces 16 ++ "</div>" ++ newline
  ++ spaces 12.

(** [response.ok] *)
Definition responseOk (status : Z) : bool :=
  ((200 <=? status) && (status <=? 299))%Z.

(** The [catch] block: look the container up again and show the error. *)
Definition showLoadError (containerId componentName message : string)
  (d : list Element) : list Element :=
  match getElementById containerId d with
  | Some container => alter (setInnerHTML (errorMarkup componentName message))
                            container d
  | None => d
  end.

(** A call of the async function [loadHTMLComponent] is either settled or
    suspended at one of its two [await]s, holding the reference to the
    container it found. *)
Inductive LoadTask : Type :=
| Settled (result : bool)
| AwaitingFetch (componentPath containerId componentName : string)
                (container : nat)
| AwaitingText (componentPath containerId componentName : string)
               (container : nat) (body : BodyRead).

Section Loader.

Variable P : Platform.

(** From the call to the first [await]. *)
Definition start (componentPath containerId componentName : string)
  (d : list Element) : LoadTask * list Element :=
  match getElementById containerId d with
  | None => (Settled false, d)
  | Some container =>
      (AwaitingFetch componentPath containerId componentName container,
       alter (setInnerHTML (loadingMarkup componentName)) container d)
  end.

(** The request settles: [None] when the call ends in the [catch] block,
    the pending body read otherwise. *)
Definition afterFetch (componentPath containerId componentName : string)
  (d : list Element) : option BodyRead * list Element :=
  match fetch P componentPath with
  | NetworkError message =>
      (None, showLoadError containerId componentName message d)
  | Response status statusText body =>
      if responseOk status then (Some body, d)
      else (None, showLoadError containerId componentName
                    ("HTTP " ++ pretty status ++ ": " ++ statusText) d)
  end.

(** The body read settles. *)
Definition afterText (containerId componentName : string) (container : nat)
  (body : BodyRead) (d : list Element) : bool * list Element :=
  match body with
  | BodyText htmlContent => (true, alter (setInnerHTML htmlContent) container d)
  | BodyError message =>
      (false, showLoadError containerId componentName message d)
  end.

(** One continuation of a suspended call. *)
Definition resume (t : LoadTask) (d : list Element) : LoadTask * list Element :=
  match t with
  | Settled _ => (t, d)
  | AwaitingFetch componentPath containerId componentName container =>
      match afterFetch componentPath containerId componentName d with
      | (Some body, d') =>
          (AwaitingText componentPath containerId componentName container body, d')
      | (None, d') => (Settled false, d')
      end
  | AwaitingText _ containerId componentName container body =>
      let (result, d') := afterText containerId componentName container body d in
      (Settled result, d')
  end.

(** Run a call to its end with nothing else in between. *)
Definition finish (t : LoadTask) (d : list Element) : bool * list Element :=
  match t with
  | Settled result => (result, d)
  | AwaitingFetch componentPath containerId componentName container =>
      match afterFetch componentPath containerId componentName d with
      | (Some body, d') => afterText containerId componentName container body d'
      | (None, d') => (false, d')
      end
  | AwaitingText _ containerId componentName container body =>
      afterText containerId componentName container body d
  end.

(** [await loadHTMLComponent(componentPath, containerId, componentName)] *)
Definition loadHTMLComponent (componentPath containerId componentName : string)
  (d : list Element) : bool * list Element :=
  let (t, d1) := start componentPath containerId componentName d in
  finish t d1.

(** [updateNextMeetingDate()] *)
Definition updateNextMeetingDate (d : list Element) : list Element :=
  match getElementById "nextMeeting" d with
  | Some nextMeetingElement =>
      alter (setInnerHTML
               "Saturday, September 16th<br>10:00 AM at Community Center")
            nextMeetingElement d
  | None => d
  end.

(** [initializeComponentFeatures()]: the menu, scrolling and header
    set-ups only register listeners; the meeting date is the one change
    to the document. *)
Definition initializeComponentFeatures (d : list Element) : list Element :=
  updateNextMeetingDate d.

(** The continuations of the two pending calls run in the order in which
    their requests settle: [true] lets the header call take its next
    step, [false] the footer call. *)
Fixpoint interleave (schedule : list bool) (header footer : LoadTask)
  (d : list Element) : LoadTask * LoadTask * list Element :=
  match schedule with
  | [] => (header, footer, d)
  | true :: rest =>
      let (header', d') := resume header d in interleave rest header' footer d'
  | false :: rest =>
      let (footer', d') := resume footer d in interleave rest header footer' d'
  end.

(** [loadAllComponents()]: both calls start in turn, their continuations
    interleave, and [Promise.all] hands over both results once the two
    have settled. *)
Definition loadAllComponents (schedule : list bool) (d : list Element)
  : bool * bool * list Element :=
  let (header, d1) := start headerPath headerContainerId "header" d in
  let (footer, d2) := start footerPath footerContainerId "footer" d1 in
  let '(header', footer', d3) := interleave schedule header footer d2 in
  let (headerLoaded, d4) := finish header' d3 in
  let (footerLoaded, d5) := finish footer' d4 in
  (headerLoaded, footerLoaded, initializeComponentFeatures d5).

End Loader.
End ComponentLoader.

(** ** Vocabulary of the statements *)

Import AdminSessionManager ComponentLoader.

(** A user object [createSession] accepts: [id] and [username] are there
    and not empty (not falsy). *)
Definition validUser (user : JsValue) : Prop :=
  truthy (getProp user "id") = true /\ truthy (getProp user "username") = true.

(** The [count] clock readings from reading number [first] on all fall in
    the half hour that starts at [t0]. *)
Definition readingsWithin (P : Platform) (first count : nat) (t0 : Z) : Prop :=
  forall i, (i < count)%nat ->
    t0 <= dateNow P (first + i) /\ dateNow P (first + i) <= t0 + ACTIVITY_TIMEOUT.

(** A session record with [user], [expiry], [user.username] and [user.id]
    all present. *)
Definition structurallyComplete (record : JsValue) : bool :=
  truthy record && truthy (getProp record "user")
  && truthy (getProp record "expiry")
  && truthy (getProp (getProp record "user") "username")
  && truthy (getProp (getProp record "user") "id").

(** What the text under the session key parses to, if anything. *)
Definition persistedRecord (P : Platform) (s : State) : option JsValue :=
  match getItem SESSION_KEY s with
  | Some text => JSON_parse P text
  | None => None
  end.

(** What [initializeSession] leaves behind when it does not restore a
    session. *)
Definition loggedOutAfterInitialisation (P : Platform) (s' : State) : Prop :=
  getItem SESSION_KEY s' = None
  /\ currentUser (this s') = JNull
  /\ sessionExpiry (this s') = JNull
  /\ isInitialized (this s') = true
  /\ forall depth, isAuthenticated P (S depth) s' = Normal false s'.

(** What decides whether an element is on screen, and which element it
    is. *)
Definition visual (e : Element) : string * list string * string :=
  (elemId e, classList e, display e).

Definition shownElement (e : Element) : Prop :=
  display e = "block" /\ hasClass "hidden" e = false.

Definition hiddenElement (e : Element) : Prop :=
  display e = "none" /\ hasClass "hidden" e = true.

(** The login screen and the dashboard of document [before], if both are
    there, show in [after] what goes with the authentication state; if
    one is missing nothing has changed. *)
Definition containersShow (authenticated : bool) (before after : list Element)
  : Prop :=
  match getElementById "loginScreen" before,
        getElementById "adminDashboard" before with
  | Some loginScreen, Some adminDashboard =>
      exists l a,
        after !! loginScreen = Some l /\ after !! adminDashboard = Some a
        /\ elemId l = "loginScreen" /\ elemId a = "adminDashboard"
        /\ if authenticated then hiddenElement l /\ shownElement a
           else shownElement l /\ hiddenElement a
  | _, _ => after = before
  end.

(** The request was answered with an OK status and its body could be
    read. *)
Definition fetchSucceeded (outcome : FetchOutcome) : bool :=
  match outcome with
  | Response status _ (BodyText _) => responseOk status
  | _ => false
  end.

Definition contentAt (d : list Element) (n : nat) : option Content :=
  content <$> d !! n.

(** Where the two calls of [loadAllComponents] can be when the header
    request is answered with [headerMarkup] and the footer request fails
    with [footerError]; [h] and [f] are the two containers of the
    document [d0] the page started with. *)
Definition headerProgress (h : nat) (headerMarkup : string) (t : LoadTask)
  (d : list Element) : Prop :=
  t = AwaitingFetch headerPath headerContainerId "header" h
  \/ t = AwaitingText headerPath headerContainerId "header" h
                      (BodyText headerMarkup)
  \/ (t = Settled true /\ contentAt d h = Some (Html headerMarkup)).

Definition footerProgress (f : nat) (footerError : string) (t : LoadTask)
  (d : list Element) : Prop :=
  t = AwaitingFetch footerPath footerContainerId "footer" f
  \/ (t = Settled false /\ contentAt d f = Some (Html footerError)).

Definition loading (d0 : list Element) (h f : nat)
  (headerMarkup footerError : string) (header footer : LoadTask)
  (d : list Element) : Prop :=
  elemId <$> d = elemId <$> d0
  /\ headerProgress h headerMarkup header d
  /\ footerProgress f footerError footer d.

(** *** Sequences of calls and of events *)

(** The state a call ends in, whether it returns or throws. *)
Definition stateOf {A : Type} (c : Completion A) : State :=
  match c with
  | Normal _ s => s
  | Abrupt _ s => s
  end.

(** A call of one of the manager's methods by the page. *)
Inductive Call : Type :=
| CallCreateSession (user : JsValue)
| CallIsAuthenticated
| CallUpdateActivity
| CallClearSession
| CallLogout (redirect : bool)
| CallGetCurrentUser
| CallProtectPage
| CallHasPermission (requiredRole : string)
| CallInitializeSession
| CallRefreshSession.

(** The state after a call; an exception ends the call, not the page. *)
Definition perform (P : Platform) (depth : nat) (c : Call) (s : State) : State :=
  match c with
  | CallCreateSession user => snd (createSession P user s)
  | CallIsAuthenticated => stateOf (isAuthenticated P depth s)
  | CallUpdateActivity => stateOf (updateActivity P depth s)
  | CallClearSession => clearSession P s
  | CallLogout redirect => logout P redirect s
  | CallGetCurrentUser => stateOf (getCurrentUser P depth s)
  | CallProtectPage => stateOf (protectPage P depth s)
  | CallHasPermission requiredRole =>
      stateOf (hasPermission P depth requiredRole s)
  | CallInitializeSession => stateOf (initializeSession P depth s)
  | CallRefreshSession => stateOf (refreshSession P depth s)
  end.

Definition performAll (P : Platform) (depth : nat) (calls : list Call)
  (s : State) : State :=
  fold_left (fun s c => perform P depth c s) calls s.

(** [logout(true)] is the one call that may navigate. *)
Definition redirects (c : Call) : bool :=
  match c with
  | CallLogout true => true
  | _ => false
  end.

(** The user in memory is null or has id and username. *)
Definition userOk (s : State) : Prop :=
  currentUser (this s) = JNull \/ validUser (currentUser (this s)).

(** The events [setupActivityTracking()] listens to, and the timer it
    starts. *)
Inductive PageEvent : Type :=
| UserActivity                      (* click, keypress, mousemove, scroll, touchstart *)
| VisibilityChange (hidden : bool)  (* visibilitychange, with [document.hidden] *)
| ThrottleTimeout.                  (* the timer resets [activityThrottle] *)

(** One event, on the flag and the state; a listener that throws leaves
    the flag as it was. *)
Definition dispatch (P : Platform) (depth : nat) (event : PageEvent)
  (page : bool * State) : bool * State :=
  let (activityThrottle, s) := page in
  match event with
  | UserActivity =>
      match handleActivity P depth activityThrottle s with
      | Normal throttle s' => (throttle, s')
      | Abrupt _ s' => (activityThrottle, s')
      end
  | VisibilityChange hidden =>
      if negb hidden then
        match handleActivity P depth activityThrottle s with
        | Normal throttle s' => (throttle, s')
        | Abrupt _ s' => (activityThrottle, s')
        end
      else (activityThrottle, s)
  | ThrottleTimeout => (false, s)
  end.

Definition dispatchAll (P : Platform) (depth : nat) (events : list PageEvent)
  (page : bool * State) : bool * State :=
  fold_left (fun page event => dispatch P depth event page) events page.

Definition isTimeout (event : PageEvent) : bool :=
  match event with
  | ThrottleTimeout => true
  | _ => false
  end.

(** The writes the flag still allows before the next timeout. *)
Definition budget (activityThrottle : bool) : nat :=
  if activityThrottle then 0%nat else 1%nat.

(** A session that passes the check at any time in the half hour from
    [t0], and a clock that stays in that half hour. *)
Definition liveFrom (t0 : Z) (s : State) : Prop :=
  truthy (currentUser (this s)) = true
  /\ exists expiry activity,
       sessionExpiry (this s) = JNum expiry
       /\ lastActivity (this s) = JNum activity
       /\ t0 + ACTIVITY_TIMEOUT < expiry
       /\ t0 <= activity.

Definition clockWithin (P : Platform) (t0 : Z) : Prop :=
  forall i, t0 <= dateNow P i /\ dateNow P i <= t0 + ACTIVITY_TIMEOUT.

(** *** Records and names *)

(** The record [createSession] stores. *)
Definition sessionRecord (user : JsValue) (loginTime expiry activity : Z)
  : JsValue :=
  JObj (<["user" := user]>
        (<["loginTime" := JNum loginTime]>
         (<["expiry" := JNum expiry]>
          (<["lastActivity" := JNum activity]> ∅)))).

(** The name [updateUserDisplay] shows for a user. *)
Definition displayName (user : JsValue) : string :=
  toDisplayString (jsOr (getProp user "full_name") (getProp user "username")).

(** *** Loading *)

(** The [error.message] the [catch] block of [loadHTMLComponent] gets for
    a request that did not succeed. *)
Definition failureMessage (outcome : FetchOutcome) : option string :=
  match outcome with
  | NetworkError message => Some message
  | Response status statusText body =>
      if responseOk status then
        match body with
        | BodyText _ => None
        | BodyError message => Some message
        end
      else Some ("HTTP " ++ pretty status ++ ": " ++ statusText)
  end.

(** What a call of [loadHTMLComponent] is going to return, read off the
    point it has reached: the result if it has settled, otherwise whether
    the request succeeds and the body can be read. *)
Definition resultOf (P : Platform) (t : LoadTask) : bool :=
  match t with
  | Settled result => result
  | AwaitingFetch componentPath _ _ _ => fetchSucceeded (fetch P componentPath)
  | AwaitingText _ _ _ _ (BodyText _) => true
  | AwaitingText _ _ _ _ (BodyError _) => false
  end.

(** ** Sample data *)

Module Sample.

Definition henry : JsValue :=
  JObj (<["id" := JNum 7]> (<["username" := JStr "henry"]> ∅)).

(** A record as [createSession] builds it. *)
Definition record (user : JsValue) (expiry activity : Z) : JsValue :=
  JObj (<["user" := user]>
        (<["loginTime" := JNum 1700000000000]>
         (<["expiry" := JNum expiry]>
          (<["lastActivity" := JNum activity]> ∅)))).

(** A user without [id]. *)
Definition nameOnly : JsValue := JObj (<["username" := JStr "henry"]> ∅).

Definition henryText : string := "session of henry".
Definition nameOnlyText : string := "session without user id".

Definition parse (text : string) : option JsValue :=
  if String.eqb text henryText
  then Some (record henry 1700086400000 1700000000000)
  else if String.eqb text nameOnlyText
  then Some (record nameOnly 1700086400000 1700000000000)
  else None.

Definition answer (path : string) : FetchOutcome :=
  if String.eqb path headerPath then Response 200 "OK" (BodyText "<div>H</div>")
  else Response 404 "Not Found" (BodyText "<h1>Not Found</h1>").

Definition platform (clock : nat -> Z) (answers : nat -> bool)
  (roomLeft : nat -> bool) : Platform :=
  mkPlatform clock answers roomLeft parse (fun _ => Some henryText)
             (fun _ => None) answer.

(** The clock advances by a millisecond per reading; dialogs are
    cancelled. *)
Definition ticking : Platform :=
  platform (fun n => 1700000000000 + Z.of_nat n) (fun _ => false) (fun _ => true).

(** The same with the storage quota used up. *)
Definition storageFull : Platform :=
  platform (fun n => 1700000000000 + Z.of_nat n) (fun _ => false) (fun _ => false).

(** One hour after the login below; every dialog is answered with OK. *)
Definition alwaysOk : Platform :=
  platform (fun _ => 1700003600000) (fun _ => true) (fun _ => true).

(** One hour after the login; OK once, then Cancel. *)
Definition okThenCancel : Platform :=
  platform (fun n => 1700003600000 + 1000 * Z.of_nat n) (fun n => Nat.eqb n 0)
           (fun _ => true).

(** One hour after the login for two readings; then the system clock is
    set back to one minute after the login. *)
Definition clockSetBack : Platform :=
  platform (fun n => if (n <? 2)%nat then 1700003600000 else 1700000060000)
           (fun _ => true) (fun _ => true).

Definition page (path : string) (stored : gmap string string)
  (d : list Element) : Browser :=
  mkBrowser stored 0 0 0 d path None.

Definition dashboard : list Element :=
  [ mkElement "loginScreen" ["panel"; "hidden"] "none" (Html "");
    mkElement "adminDashboard" ["panel"] "block" (Html "");
    mkElement "currentUser" [] "" (Text "") ].

Definition loggedOut : Manager := mkManager JNull JNull (JNum 1700000000000) true.

(** henry logged in at 1700000000000 and has not been seen since. *)
Definition idle : Manager :=
  mkManager henry (JNum 1700086400000) (JNum 1700000000000) true.

Definition idleState : State :=
  mkState idle (page "/admin-dashboard.html" (<[SESSION_KEY := henryText]> ∅)
                     dashboard).

(** A session that ran out at 1700000000000, with its record still
    stored. *)
Definition expiredState : State :=
  mkState (mkManager henry (JNum 1700000000000) (JNum 1699999000000) true)
          (page "/admin-events.html" (<[SESSION_KEY := henryText]> ∅) []).

Definition freshState : State :=
  mkState loggedOut (page "/admin-dashboard.html" ∅ dashboard).


(** A page load that finds a record without [user.id]. *)
Definition corruptState : State :=
  mkState (mkManager JNull JNull (JNum 1700000000000) false)
          (page "/admin-dashboard.html" (<[SESSION_KEY := nameOnlyText]> ∅)
                dashboard).

(** A page load that finds henry's record. *)
Definition returningState : State :=
  mkState (mkManager JNull JNull (JNum 1700000000000) false)
          (page "/admin-dashboard.html" (<[SESSION_KEY := henryText]> ∅)
                dashboard).

Definition sitePage : list Element :=
  [ mkElement "header-container" [] "" (Html "");
    mkElement "main" ["content"] "" (Html "<h1>Model A Club</h1>");
    mkElement "footer-container" [] "" (Html "") ].

(** The moment of the login below, for every reading. *)
Definition atLogin : Platform :=
  platform (fun _ => 1700000000000) (fun _ => false) (fun _ => true).

(** More than a day after the login. *)
Definition dayLater : Platform :=
  platform (fun _ => 1700090000000) (fun _ => false) (fun _ => true).

(** A platform on which the text 42 under the session key parses to the
    number. *)
Definition tampered : Platform :=
  mkPlatform (fun _ => 1700003600000) (fun _ => false) (fun _ => true)
             (fun text => if String.eqb text "42" then Some (JNum 42) else None)
             (fun _ => Some "42") (fun _ => None) answer.

(** A platform on which the record of the login cannot be serialised:
    the user object handed over refers to itself, and [JSON.stringify]
    throws on every value that holds it. *)
Definition selfReference : Platform :=
  mkPlatform (fun n => 1700000000000 + Z.of_nat n) (fun _ => false)
             (fun _ => true) parse (fun _ => None) (fun _ => None) answer.

(** A user with the admin role and a full name. *)
Definition ford : JsValue :=
  JObj (<["id" := JNum 1]>
        (<["username" := JStr "ford"]>
         (<["full_name" := JStr "Henry Ford"]>
          (<["role" := JStr "admin"]> ∅)))).

(** henry, seen an hour after the login. *)
Definition active : Manager :=
  mkManager henry (JNum 1700086400000) (JNum 1700003600000) true.

Definition activeState : State :=
  mkState active (page "/admin-dashboard.html"
                       (<["theme" := "dark"]> (<[SESSION_KEY := henryText]> ∅))
                       dashboard).

(** The same with the stored record gone. *)
Definition unsavedState : State :=
  mkState active (page "/admin-dashboard.html" ∅ dashboard).

(** The same with the stored record overwritten by 42. *)
Definition tamperedState : State :=
  mkState active (page "/admin-dashboard.html" (<[SESSION_KEY := "42"]> ∅)
                       dashboard).

Definition fordState : State :=
  mkState (mkManager ford (JNum 1700086400000) (JNum 1700003600000) true)
          (page "/admin-users.html" ∅
                (dashboard ++ [mkElement "" ["admin-user-name"] "" (Text "")])).

End Sample.

(** * Properties *)

(** ** Strings *)

Example pop_split_nested :
  pop (splitOn "/" "/club/admin/admin-news.html") = "admin-news.html".
Proof. reflexivity. Qed.

Example pop_split_directory : pop (splitOn "/" "/club/") = "".
Proof. reflexivity. Qed.

Example includes_middle :
  includes "/admin" "/club/administration/index.html" = true.
Proof. reflexivity. Qed.

Example includes_absent : includes "/admin" "/club/badmin.html" = false.
Proof. reflexivity. Qed.

Example loadingMarkup_header :
  loadingMarkup "header"
  = "<div class=" ++ quote ++ "loading-component" ++ quote
    ++ ">Loading header...</div>".
Proof. reflexivity. Qed.

Lemma prefix_app (needle rest : string) :
  String.prefix needle (needle ++ rest) = true.
Proof.
  induction needle as [|c needle IH]; [by destruct rest|].
  change (String c needle ++ rest) with (String c (needle ++ rest)). simpl.
  destruct (Ascii.ascii_dec c c); [exact IH|contradiction].
Qed.

Lemma includes_unfold (needle hay : string) :
  includes needle hay
  = String.prefix needle hay
    || match hay with
       | EmptyString => false
       | String _ rest => includes needle rest
       end.
Proof. destruct hay; reflexivity. Qed.

Lemma includes_here (needle rest : string) :
  includes needle (needle ++ rest) = true.
Proof. rewrite includes_unfold, prefix_app. reflexivity. Qed.

Lemma includes_app_r (needle a b : string) :
  includes needle b = true -> includes needle (a ++ b) = true.
Proof.
  intros H. induction a as [|c a IH]; [exact H|].
  change (String c a ++ b) with (String c (a ++ b)).
  rewrite includes_unfold, IH. apply orb_true_r.
Qed.

Lemma prefix_split (needle hay : string) :
  String.prefix needle hay = true <-> exists rest, hay = needle ++ rest.
Proof.
  revert hay. induction needle as [|c needle IH]; intros hay.
  - split; [intros _; exists hay; reflexivity|intros _; by destruct hay].
  - destruct hay as [|c' hay]; simpl.
    + split; [discriminate|intros [rest H]; discriminate H].
    + destruct (Ascii.ascii_dec c c') as [->|Hne].
      * rewrite IH. split; intros [rest H]; exists rest.
        -- by rewrite H.
        -- by injection H.
      * split; [discriminate|].
        intros [rest H]. injection H as H1 H2. congruence.
Qed.

(** [includes] finds exactly the substrings. *)
Lemma includes_substring (needle hay : string) :
  includes needle hay = true
  <-> exists before rest, hay = before ++ needle ++ rest.
Proof.
  induction hay as [|c hay IH].
  - rewrite includes_unfold, orb_false_r, prefix_split. split.
    + intros [rest H]. exists "", rest. exact H.
    + intros (before & rest & H). destruct before; [eauto|discriminate H].
  - rewrite includes_unfold, orb_true_iff, prefix_split, IH. split.
    + intros [[rest H] | (before & rest & H)].
      * exists "", rest. exact H.
      * exists (String c before), rest. by rewrite H.
    + intros (before & rest & H). destruct before as [|c' before].
      * left. eauto.
      * right. injection H as _ H. eauto.
Qed.

(** ** Values *)

Example zero_is_no_id :
  truthy (getProp (JObj (<["id" := JNum 0]> ∅)) "id") = false.
Proof. reflexivity. Qed.

Example sample_user_is_valid : validUser Sample.henry.
Proof. split; reflexivity. Qed.

Example sample_record_is_complete :
  structurallyComplete (Sample.record Sample.henry 1700086400000 1700000000000)
  = true.
Proof. reflexivity. Qed.

Example record_without_id_is_incomplete :
  structurallyComplete (Sample.record Sample.nameOnly 1700086400000
                                      1700000000000) = false.
Proof. reflexivity. Qed.

(** ** The session in memory and in storage *)

Ltac destruct_state s :=
  let u := fresh "user" in
  let e := fresh "expiry" in
  let a := fresh "activity" in
  let i := fresh "initialized" in
  destruct s as [[u e a i] [? ? ? ? ? ? ?]].

Lemma truthy_getProp v k : truthy (getProp v k) = true -> truthy v = true.
Proof. destruct v; simpl; try discriminate. reflexivity. Qed.

Lemma removeItem_getItem k s : getItem k (removeItem k s) = None.
Proof. unfold getItem, removeItem. cbn. apply lookup_delete_eq. Qed.

Lemma clearSession_cleared P s :
  getItem SESSION_KEY (clearSession P s) = None
  /\ currentUser (this (clearSession P s)) = JNull
  /\ sessionExpiry (this (clearSession P s)) = JNull.
Proof.
  destruct_state s. unfold getItem. cbn. rewrite lookup_delete_eq. auto.
Qed.

Lemma clearSession_again P s :
  clearSession P (clearSession P s)
  = withThis (setLastActivity (JNum (dateNow P (S (clockReads (browser s))))))
             (snd (Date_now P (clearSession P s))).
Proof.
  destruct_state s. cbn. unfold withThis, withBrowser, setLastActivity. cbn.
  rewrite (delete_id (delete SESSION_KEY _)) by apply lookup_delete_eq.
  reflexivity.
Qed.

Lemma showLoginForm_frame s :
  this (showLoginForm s) = this s
  /\ localStorage (browser (showLoginForm s)) = localStorage (browser s).
Proof.
  unfold showLoginForm.
  destruct (getElementById _ _); [destruct (getElementById _ _)|];
    split; reflexivity.
Qed.

Lemma logout_cleared P s :
  getItem SESSION_KEY (logout P false s) = None
  /\ currentUser (this (logout P false s)) = JNull.
Proof.
  unfold logout. cbn [andb].
  destruct (showLoginForm_frame (clearSession P s)) as [Hthis Hstore].
  destruct (clearSession_cleared P s) as (Hg & Hu & _).
  unfold getItem in *. rewrite Hthis, Hstore. auto.
Qed.

Lemma isAuthenticated_no_user P depth s :
  currentUser (this s) = JNull -> isAuthenticated P (S depth) s = Normal false s.
Proof. intros H. cbn [isAuthenticated]. rewrite H. reflexivity. Qed.

(** A session that is neither expired nor idle passes the check; the
    check costs two clock readings. *)
Lemma isAuthenticated_live P depth s e a :
  truthy (currentUser (this s)) = true ->
  sessionExpiry (this s) = JNum e ->
  lastActivity (this s) = JNum a ->
  e <> 0 ->
  dateNow P (clockReads (browser s)) < e ->
  dateNow P (S (clockReads (browser s))) - a <= ACTIVITY_TIMEOUT ->
  isAuthenticated P (S depth) s
  = Normal true (snd (Date_now P (snd (Date_now P s)))).
Proof.
  intros Hu He Ha Hz Hlt Hact. cbn [isAuthenticated]. rewrite Hu, He.
  cbn [truthy].
  replace (e =? 0)%Z with false by (symmetry; apply Z.eqb_neq; exact Hz).
  cbn [negb orb Date_now withBrowser this browser clockReads].
  rewrite He, Ha. unfold jsGe, jsElapsedGt. cbn [toNumber].
  replace (e <=? _)%Z with false by (symmetry; apply Z.leb_gt; exact Hlt).
  replace (ACTIVITY_TIMEOUT <? _)%Z with false
    by (symmetry; apply Z.ltb_ge; exact Hact).
  reflexivity.
Qed.

Lemma sessionData_expiry (user a b c : JsValue) :
  getProp (JObj (<["user" := user]> (<["loginTime" := a]>
                 (<["expiry" := b]> (<["lastActivity" := c]> ∅))))) "expiry" = b.
Proof. unfold getProp. by simplify_map_eq. Qed.

Lemma sessionData_lastActivity (user a b c : JsValue) :
  getProp (JObj (<["user" := user]> (<["loginTime" := a]>
                 (<["expiry" := b]> (<["lastActivity" := c]> ∅)))))
          "lastActivity" = c.
Proof. unfold getProp. by simplify_map_eq. Qed.

(** The other way into the [catch] block: [JSON.stringify] throws on the
    record (the user object refers to itself, or holds a BigInt).  The
    call returns false for a user with id and username, nothing is
    written, and no session exists afterwards. *)
Lemma createSession_fails_when_record_cannot_be_serialised :
  validUser Sample.henry
  /\ setItemOk Sample.selfReference (writes (browser Sample.freshState)) = true
  /\ fst (createSession Sample.selfReference Sample.henry Sample.freshState)
     = false
  /\ writes (browser (snd (createSession Sample.selfReference Sample.henry
                             Sample.freshState)))
     = writes (browser Sample.freshState)
  /\ isAuthenticated Sample.selfReference 1
       (snd (createSession Sample.selfReference Sample.henry Sample.freshState))
     = Normal false
         (snd (createSession Sample.selfReference Sample.henry
                 Sample.freshState)).
Proof. split; [split; reflexivity|]. repeat split. Qed.

(** C1, as the claim states it, fails: with the storage quota used up
    [setItem] throws, the [catch] block of [createSession] returns false
    for a user with id and username, and no session exists afterwards. *)
Lemma createSession_fails_when_storage_is_full :
  validUser Sample.henry
  /\ fst (createSession Sample.storageFull Sample.henry Sample.freshState) = false
  /\ isAuthenticated Sample.storageFull 1
       (snd (createSession Sample.storageFull Sample.henry Sample.freshState))
     = Normal false
         (snd (createSession Sample.storageFull Sample.henry Sample.freshState)).
Proof. split; [split; reflexivity|]. split; reflexivity. Qed.

(** C1 (amended).  For every user object with non-empty id and username,
    when [JSON.stringify] returns for the session record (it throws on a
    user object that refers to itself or holds a BigInt) and the write to
    localStorage succeeds, [createSession(user)] returns true; and when
    the clock readings of the calls all lie within one half hour of
    non-negative time, [isAuthenticated()] called right after returns true
    and [getCurrentUser()], called right after either of them, returns
    that user. *)
Theorem createSession_then_authenticated P user s depth t0 :
  validUser user ->
  (let n := clockReads (browser s) in
   is_Some (JSON_stringify P
              (sessionRecord user (dateNow P n)
                 (dateNow P (1 + n) + SESSION_TIMEOUT) (dateNow P (2 + n))))) ->
  setItemOk P (writes (browser s)) = true ->
  0 <= t0 ->
  readingsWithin P (clockReads (browser s)) 7 t0 ->
  exists s1 s2 s3,
    createSession P user s = (true, s1)
    /\ isAuthenticated P (S depth) s1 = Normal true s2
    /\ getCurrentUser P (S depth) s1 = Normal user s2
    /\ getCurrentUser P (S depth) s2 = Normal user s3.
Proof.
  intros [Hid Hname] [text Htext] Hok Ht0 Hwin.
  unfold sessionRecord in Htext. cbn [Nat.add] in Htext.
  pose proof (truthy_getProp _ _ Hid) as Huser.
  set (n := clockReads (browser s)) in *.
  pose proof (Hwin 1%nat ltac:(lia)) as H1.
  pose proof (Hwin 2%nat ltac:(lia)) as H2.
  pose proof (Hwin 3%nat ltac:(lia)) as H3.
  pose proof (Hwin 4%nat ltac:(lia)) as H4.
  pose proof (Hwin 5%nat ltac:(lia)) as H5.
  pose proof (Hwin 6%nat ltac:(lia)) as H6.
  replace (n + 1)%nat with (S n) in H1 by lia.
  replace (n + 2)%nat with (S (S n)) in H2 by lia.
  replace (n + 3)%nat with (S (S (S n))) in H3 by lia.
  replace (n + 4)%nat with (S (S (S (S n)))) in H4 by lia.
  replace (n + 5)%nat with (S (S (S (S (S n))))) in H5 by lia.
  replace (n + 6)%nat with (S (S (S (S (S (S n)))))) in H6 by lia.
  unfold createSession. rewrite Huser, Hid, Hname. cbn [negb orb].
  cbn [Date_now withBrowser this browser clockReads].
  fold n. fold n in Htext. rewrite Htext.
  cbn [setItem withBrowser this browser clockReads writes].
  rewrite Hok, sessionData_expiry, sessionData_lastActivity.
  assert (Hauth : forall s1,
    currentUser (this s1) = user ->
    sessionExpiry (this s1) = JNum (dateNow P (S n) + SESSION_TIMEOUT) ->
    lastActivity (this s1) = JNum (dateNow P (S (S n))) ->
    clockReads (browser s1) = S (S (S n))
    \/ clockReads (browser s1) = S (S (S (S (S n)))) ->
    isAuthenticated P (S depth) s1
    = Normal true (snd (Date_now P (snd (Date_now P s1))))).
  { intros s1 E1 E2 E3 E4. eapply isAuthenticated_live; eauto.
    - rewrite E1; exact Huser.
    - unfold SESSION_TIMEOUT; lia.
    - unfold SESSION_TIMEOUT, ACTIVITY_TIMEOUT in *;
        destruct E4 as [-> | ->]; lia.
    - unfold ACTIVITY_TIMEOUT in *; destruct E4 as [-> | ->]; lia. }
  do 3 eexists. split; [reflexivity|].
  split; [|split].
  - rewrite Hauth; [reflexivity..|left; reflexivity].
  - unfold getCurrentUser.
    rewrite Hauth; [reflexivity..|left; reflexivity].
  - unfold getCurrentUser.
    rewrite Hauth; [reflexivity..|right; reflexivity].
Qed.

Lemma createSession_then_authenticated_witness :
  validUser Sample.henry
  /\ is_Some (JSON_stringify Sample.ticking
                (sessionRecord Sample.henry 1700000000000
                   (1700000000001 + SESSION_TIMEOUT) 1700000000002))
  /\ setItemOk Sample.ticking (writes (browser Sample.freshState)) = true
  /\ 0 <= 1700000000000
  /\ readingsWithin Sample.ticking (clockReads (browser Sample.freshState)) 7
                    1700000000000
  /\ exists s1 s2 s3,
       createSession Sample.ticking Sample.henry Sample.freshState = (true, s1)
       /\ isAuthenticated Sample.ticking 1 s1 = Normal true s2
       /\ getCurrentUser Sample.ticking 1 s1 = Normal Sample.henry s2
       /\ getCurrentUser Sample.ticking 1 s2 = Normal Sample.henry s3.
Proof.
  assert (Hv : validUser Sample.henry) by (split; reflexivity).
  assert (Hw : readingsWithin Sample.ticking
                 (clockReads (browser Sample.freshState)) 7 1700000000000).
  { intros i Hi. unfold ACTIVITY_TIMEOUT. simpl. lia. }
  assert (Hs : is_Some (JSON_stringify Sample.ticking
                          (sessionRecord Sample.henry 1700000000000
                             (1700000000001 + SESSION_TIMEOUT) 1700000000002)))
    by (eexists; reflexivity).
  split; [exact Hv|]. split; [exact Hs|]. split; [reflexivity|].
  split; [lia|]. split; [exact Hw|].
  apply (createSession_then_authenticated Sample.ticking Sample.henry
           Sample.freshState 0 1700000000000 Hv Hs eq_refl ltac:(lia) Hw).
Defined.

(** C2.  When the manager holds a session (user and expiry set) whose
    expiry timestamp is not after the current clock reading,
    [isAuthenticated()] returns false, the record under the session key is
    gone from localStorage, and the in-memory user and expiry are reset. *)
Theorem isAuthenticated_expired P depth s expiry :
  truthy (currentUser (this s)) = true ->
  truthy (sessionExpiry (this s)) = true ->
  toNumber P (sessionExpiry (this s)) = Some expiry ->
  expiry <= dateNow P (clockReads (browser s)) ->
  exists s',
    isAuthenticated P (S depth) s = Normal false s'
    /\ getItem SESSION_KEY s' = None
    /\ currentUser (this s') = JNull
    /\ sessionExpiry (this s') = JNull.
Proof.
  intros Hu He Hn Hle. cbn [isAuthenticated]. rewrite Hu, He. cbn [negb orb].
  cbn [Date_now withBrowser this browser]. unfold jsGe. rewrite Hn.
  replace (expiry <=? _)%Z with true by (symmetry; apply Z.leb_le; exact Hle).
  eexists. split; [reflexivity|]. apply clearSession_cleared.
Qed.

Lemma isAuthenticated_expired_witness :
  truthy (currentUser (this Sample.expiredState)) = true
  /\ truthy (sessionExpiry (this Sample.expiredState)) = true
  /\ toNumber Sample.ticking (sessionExpiry (this Sample.expiredState))
     = Some 1700000000000
  /\ 1700000000000
     <= dateNow Sample.ticking (clockReads (browser Sample.expiredState))
  /\ getItem SESSION_KEY Sample.expiredState = Some Sample.henryText
  /\ exists s',
       isAuthenticated Sample.ticking 1 Sample.expiredState = Normal false s'
       /\ getItem SESSION_KEY s' = None
       /\ currentUser (this s') = JNull
       /\ sessionExpiry (this s') = JNull.
Proof.
  assert (Hle : 1700000000000
     <= dateNow Sample.ticking (clockReads (browser Sample.expiredState)))
    by (simpl; lia).
  split; [reflexivity|]. split; [reflexivity|]. split; [reflexivity|].
  split; [exact Hle|]. split; [reflexivity|].
  apply (isAuthenticated_expired Sample.ticking 0 Sample.expiredState
           1700000000000 eq_refl eq_refl eq_refl Hle).
Defined.

(** C7.  For an argument that is null, or whose id or username is missing
    or empty, [createSession] returns false and leaves the whole state as
    it was: the fields [currentUser], [sessionExpiry] and [lastActivity]
    and the content of localStorage are unchanged. *)
Theorem createSession_invalid_user P user s :
  user = JNull \/ truthy (getProp user "id") = false
  \/ truthy (getProp user "username") = false ->
  createSession P user s = (false, s).
Proof.
  intros H. unfold createSession.
  destruct H as [-> | [H | H]]; [reflexivity | |]; rewrite H; simpl;
    rewrite ?orb_true_r; reflexivity.
Qed.

Lemma createSession_invalid_user_witness :
  (Sample.nameOnly = JNull \/ truthy (getProp Sample.nameOnly "id") = false
   \/ truthy (getProp Sample.nameOnly "username") = false)
  /\ createSession Sample.ticking Sample.nameOnly Sample.idleState
     = (false, Sample.idleState).
Proof.
  assert (H : Sample.nameOnly = JNull
              \/ truthy (getProp Sample.nameOnly "id") = false
              \/ truthy (getProp Sample.nameOnly "username") = false)
    by (right; left; reflexivity).
  split; [exact H|].
  apply (createSession_invalid_user Sample.ticking Sample.nameOnly
           Sample.idleState H).
Defined.

(** C8.  From any state, a second [clearSession()] right after the first
    leaves no in-memory user, no expiry and no persisted record, exactly
    as the first one did; the only differences are the [lastActivity]
    stamp, which each call takes from the clock, and the count of clock
    readings. *)
Theorem clearSession_idempotent P s :
  let once := clearSession P s in
  let twice := clearSession P once in
  (currentUser (this once) = JNull /\ sessionExpiry (this once) = JNull
   /\ getItem SESSION_KEY once = None)
  /\ (currentUser (this twice) = JNull /\ sessionExpiry (this twice) = JNull
      /\ getItem SESSION_KEY twice = None)
  /\ localStorage (browser twice) = localStorage (browser once)
  /\ twice = withThis (setLastActivity
                         (JNum (dateNow P (S (clockReads (browser s))))))
                      (snd (Date_now P once)).
Proof.
  cbv zeta.
  destruct (clearSession_cleared P s) as (Hg & Hu & He).
  destruct (clearSession_cleared P (clearSession P s)) as (Hg' & Hu' & He').
  split; [auto|]. split; [auto|].
  split; [|apply clearSession_again].
  rewrite clearSession_again. reflexivity.
Qed.

(** ** The inactivity check *)

(** Once the session has been idle for more than half an hour and the
    clock does not run backwards, a call of [isAuthenticated()] that
    returns has returned false and has cleared the session: confirming
    the dialog only leads to the next dialog, because [updateActivity]
    first asks [isAuthenticated] again, so the chain of dialogs ends with
    a Cancel or with the expiry of the session. *)
Lemma idle_session_is_cleared_on_return P depth :
  forall s activity authenticated s',
    truthy (currentUser (this s)) = true ->
    truthy (sessionExpiry (this s)) = true ->
    toNumber P (lastActivity (this s)) = Some activity ->
    (forall i, (clockReads (browser s) < i)%nat ->
               ACTIVITY_TIMEOUT < dateNow P i - activity) ->
    isAuthenticated P depth s = Normal authenticated s' ->
    authenticated = false
    /\ getItem SESSION_KEY s' = None
    /\ currentUser (this s') = JNull.
Proof.
  induction depth as [|depth IH]; intros s activity b s' Hu He Ha Hidle Hrun.
  - discriminate.
  - cbn [isAuthenticated] in Hrun. rewrite Hu, He in Hrun.
    cbn [negb orb Date_now withBrowser this browser clockReads] in Hrun.
    destruct (jsGe P _ _).
    + injection Hrun as <- <-. split; [reflexivity|].
      match goal with |- context [clearSession P ?st] =>
        destruct (clearSession_cleared P st) as (Hg & Hc & _) end.
      auto.
    + unfold jsElapsedGt in Hrun. rewrite Ha in Hrun.
      replace (ACTIVITY_TIMEOUT <? _)%Z with true in Hrun
        by (symmetry; apply Z.ltb_lt; apply Hidle; lia).
      unfold showInactivityWarningWith in Hrun.
      cbn [confirm withBrowser this browser prompts] in Hrun.
      destruct (confirmAnswer P _).
      * unfold updateActivityWith in Hrun.
        match type of Hrun with context [isAuthenticated P depth ?st] =>
          destruct (isAuthenticated P depth st) as [b1 s1|e1 s1] eqn:Hnested
        end; [|discriminate].
        apply IH with (activity := activity) in Hnested as (-> & Hg & Hc);
          cbn; auto.
        -- cbn [bind] in Hrun. injection Hrun as <- <-. auto.
        -- intros i Hi. apply Hidle. lia.
      * cbn [bind] in Hrun. injection Hrun as <- <-. split; [reflexivity|].
        apply logout_cleared.
Qed.

(** Cancelling the first dialog ends the call at once: it returns false
    and the session is cleared. *)
Lemma idle_session_cancelled P depth s activity :
  truthy (currentUser (this s)) = true ->
  truthy (sessionExpiry (this s)) = true ->
  jsGe P (dateNow P (clockReads (browser s))) (sessionExpiry (this s)) = false ->
  toNumber P (lastActivity (this s)) = Some activity ->
  ACTIVITY_TIMEOUT < dateNow P (S (clockReads (browser s))) - activity ->
  confirmAnswer P (prompts (browser s)) = false ->
  exists s',
    isAuthenticated P (S depth) s = Normal false s'
    /\ getItem SESSION_KEY s' = None
    /\ currentUser (this s') = JNull.
Proof.
  intros Hu He Hlive Ha Hidle Hcancel.
  cbn [isAuthenticated]. rewrite Hu, He.
  cbn [negb orb Date_now withBrowser this browser clockReads].
  rewrite Hlive. unfold jsElapsedGt. rewrite Ha.
  replace (ACTIVITY_TIMEOUT <? _)%Z with true
    by (symmetry; apply Z.ltb_lt; exact Hidle).
  unfold showInactivityWarningWith.
  cbn [confirm withBrowser this browser prompts]. rewrite Hcancel.
  cbn [bind]. eexists. split; [reflexivity|]. apply logout_cleared.
Qed.

(** The call runs out of stack only if every dialog is confirmed: with a
    Cancel among the next [k] answers, [k + 1] frames are enough. *)
Lemma isAuthenticated_stack_suffices P k :
  forall depth s s',
    confirmAnswer P (prompts (browser s) + k) = false ->
    (k < depth)%nat ->
    isAuthenticated P depth s <> Abrupt RangeError s'.
Proof.
  induction k as [|k IH]; intros depth s s' Hcancel Hdepth;
    (destruct depth as [|depth]; [lia|]);
    cbn [isAuthenticated];
    (destruct (_ || _); [discriminate|]);
    cbn [Date_now withBrowser this browser clockReads];
    (destruct (jsGe P _ _); [discriminate|]);
    (destruct (jsElapsedGt P _ _ _); [|discriminate]);
    unfold showInactivityWarningWith;
    cbn [confirm withBrowser this browser prompts].
  - rewrite Nat.add_0_r in Hcancel. rewrite Hcancel. discriminate.
  - destruct (confirmAnswer P (prompts (browser s))); [|discriminate].
    unfold updateActivityWith.
    match goal with |- context [isAuthenticated P depth ?st] =>
      pose proof (fun s'' => IH depth st s'') as Hnested;
      destruct (isAuthenticated P depth st) as [b1 s1|e1 s1]
    end.
    + destruct b1; [|discriminate]. cbn [bind Date_now].
      destruct (getStoredSession P _) as [sessionData s4].
      destruct (truthy sessionData); [|discriminate].
      destruct sessionData; cbn [setProp Date_now]; try discriminate.
      destruct (JSON_stringify P _); discriminate.
    + cbn [bind]. intros Heq. injection Heq as -> <-.
      eapply Hnested; [|lia|reflexivity].
      cbn. rewrite <- Hcancel. f_equal. lia.
Qed.

(** C4.  At an idle session (not expired, last activity an hour ago) the
    claim wants [isAuthenticated()] to return false without necessarily
    clearing the record.  With every dialog confirmed the call never
    returns false: whatever the stack depth it ends in a RangeError.  With
    one OK and then a Cancel it returns false after two dialogs, and the
    session that the OK was meant to extend has been cleared. *)
Theorem idle_session_confirmed_is_never_extended :
  (forall depth, exists s',
      isAuthenticated Sample.alwaysOk depth Sample.idleState
      = Abrupt RangeError s')
  /\ exists s',
       isAuthenticated Sample.okThenCancel 3 Sample.idleState = Normal false s'
       /\ prompts (browser s') = 2%nat
       /\ getItem SESSION_KEY s' = None
       /\ currentUser (this s') = JNull.
Proof.
  split.
  - assert (H : forall depth s, this s = Sample.idle ->
      exists s', isAuthenticated Sample.alwaysOk depth s = Abrupt RangeError s').
    { induction depth as [|depth IH]; intros s Hs.
      - eexists; reflexivity.
      - cbn [isAuthenticated]. rewrite Hs.
        cbn [currentUser sessionExpiry Sample.idle].
        change (truthy Sample.henry) with true. cbn [truthy negb orb].
        cbn [Date_now withBrowser this]. rewrite Hs.
        cbn [sessionExpiry lastActivity Sample.idle].
        change (jsGe Sample.alwaysOk _ _) with false. cbv iota.
        change (jsElapsedGt Sample.alwaysOk _ _ _) with true. cbv iota.
        unfold showInactivityWarningWith, updateActivityWith.
        cbn [confirm confirmAnswer Sample.alwaysOk Sample.platform].
        match goal with |- context [isAuthenticated Sample.alwaysOk depth ?st] =>
          destruct (IH st) as [s' Hs']; [exact Hs|rewrite Hs'] end.
        eexists; reflexivity. }
    intros depth. apply H. reflexivity.
  - eexists. vm_compute. repeat split.
Qed.

(** C9.  Whenever [isAuthenticated()] returns false, [getCurrentUser()]
    (asked in the same state, with the same answers from the platform)
    returns null and ends in the same state, whether or not the field
    [currentUser] is still populated there. *)
Theorem getCurrentUser_null_when_not_authenticated P depth s s' :
  isAuthenticated P depth s = Normal false s' ->
  getCurrentUser P depth s = Normal JNull s'.
Proof. intros H. unfold getCurrentUser. rewrite H. reflexivity. Qed.

Lemma getCurrentUser_null_when_not_authenticated_witness :
  exists s',
    isAuthenticated Sample.clockSetBack 2 Sample.idleState = Normal false s'
    /\ currentUser (this s') = Sample.henry
    /\ getCurrentUser Sample.clockSetBack 2 Sample.idleState = Normal JNull s'.
Proof.
  eexists.
  assert (H : isAuthenticated Sample.clockSetBack 2 Sample.idleState
              = Normal false _) by (vm_compute; reflexivity).
  split; [exact H|]. split; [reflexivity|].
  apply (getCurrentUser_null_when_not_authenticated Sample.clockSetBack 2
           Sample.idleState _ H).
Defined.

(** ** The document *)

Section Dom.
Implicit Types (d : list Element) (e : Element) (i : string) (n : nat).

(** [getElementById] only looks at the ids. *)
Lemma getElementById_ids i d d' :
  elemId <$> d = elemId <$> d' -> getElementById i d = getElementById i d'.
Proof.
  revert d'.
  induction d as [|e d IH]; intros [|e' d'] H; try discriminate;
    [reflexivity|].
  cbn in H. injection H as He Hd. cbn [getElementById].
  rewrite He, (IH d' Hd). reflexivity.
Qed.

(** No element is found under the empty id. *)
Lemma getElementById_empty d : getElementById "" d = None.
Proof. induction d as [|e d IH]; [reflexivity|]. cbn. by rewrite IH. Qed.

Lemma getElementById_lookup i d n :
  getElementById i d = Some n -> exists e, d !! n = Some e /\ elemId e = i.
Proof.
  revert n. induction d as [|e d IH]; intros n H; [discriminate|].
  cbn [getElementById] in H.
  destruct (negb (String.eqb i "") && String.eqb (elemId e) i) eqn:E.
  - injection H as <-. exists e. split; [reflexivity|].
    apply andb_true_iff in E as [_ E]. by apply String.eqb_eq.
  - destruct (getElementById i d) as [m|]; [|discriminate].
    injection H as <-. destruct (IH m eq_refl) as (e' & ? & ?). exists e'. auto.
Qed.

Lemma getElementById_distinct i j d n m :
  getElementById i d = Some n -> getElementById j d = Some m ->
  i <> j -> n <> m.
Proof.
  intros Hi Hj Hne ->.
  destruct (getElementById_lookup _ _ _ Hi) as (e & He & <-).
  destruct (getElementById_lookup _ _ _ Hj) as (e' & He' & <-).
  congruence.
Qed.

(** Changing one element in a way that a projection does not see. *)
Lemma fmap_alter_same {B} (p : Element -> B) (g : Element -> Element) n d :
  (forall e, p (g e) = p e) -> p <$> alter g n d = p <$> d.
Proof.
  intros H. rewrite (list_fmap_alter p g id).
  - by apply list_alter_id.
  - apply Forall_forall. intros x _. apply H.
Qed.

Lemma getElementById_alter i (g : Element -> Element) n d :
  (forall e, elemId (g e) = elemId e) ->
  getElementById i (alter g n d) = getElementById i d.
Proof. intros H. apply getElementById_ids. by apply fmap_alter_same. Qed.


Lemma hasClass_classAdd c e : hasClass c (classAdd c e) = true.
Proof.
  unfold hasClass, classAdd. cbn.
  destruct (existsb _ (classList e)) eqn:E; [exact E|].
  rewrite existsb_app. cbn. rewrite String.eqb_refl. by rewrite orb_true_r.
Qed.

Lemma hasClass_classRemove c e : hasClass c (classRemove c e) = false.
Proof.
  unfold hasClass, classRemove. cbn.
  induction (classList e) as [|x l IH]; [reflexivity|].
  cbn. destruct (String.eqb c x) eqn:E; cbn; [exact IH|]. rewrite E. exact IH.
Qed.

Lemma contentAt_setInnerHTML d n markup :
  is_Some (d !! n) ->
  contentAt (alter (setInnerHTML markup) n d) n = Some (Html markup).
Proof.
  intros [e He]. unfold contentAt. rewrite list_lookup_alter_eq, He.
  reflexivity.
Qed.

Lemma contentAt_alter_ne d (g : Element -> Element) n m :
  n <> m -> contentAt (alter g n d) m = contentAt d m.
Proof. intros H. unfold contentAt. by rewrite list_lookup_alter_ne. Qed.

End Dom.

(** ** Page protection *)




Lemma showLoginForm_shows s :
  containersShow false (document (browser s))
                 (document (browser (showLoginForm s))).
Proof.
  unfold containersShow, showLoginForm.
  destruct (getElementById "loginScreen" _) as [l|] eqn:Hl; [|reflexivity].
  destruct (getElementById "adminDashboard" _) as [a|] eqn:Ha; [|reflexivity].
  assert (Hne : l <> a)
    by (eapply getElementById_distinct; eauto; discriminate).
  destruct (getElementById_lookup _ _ _ Hl) as (el & Hel & Hidl).
  destruct (getElementById_lookup _ _ _ Ha) as (ea & Hea & Hida).
  cbn [document browser withBrowser setDocument].
  eexists _, _. split; [|split].
  - rewrite list_lookup_alter_ne by auto.
    rewrite list_lookup_alter_eq, Hel. reflexivity.
  - rewrite list_lookup_alter_eq, list_lookup_alter_ne, Hea by auto.
    reflexivity.
  - split; [exact Hidl|]. split; [exact Hida|].
    split; (split; [reflexivity|]).
    + apply (hasClass_classRemove "hidden" el).
    + apply (hasClass_classAdd "hidden" ea).
Qed.






(** ** Initialisation from storage *)

Lemma isSessionValid_complete P record s :
  fst (isSessionValid P record s) = true -> structurallyComplete record = true.
Proof.
  unfold isSessionValid, structurallyComplete.
  destruct (truthy record); [|discriminate].
  destruct (truthy (getProp record "user")); [|discriminate].
  destruct (truthy (getProp record "expiry")); [|discriminate].
  cbn [negb orb andb Date_now]. destruct (jsGe _ _ _); [discriminate|].
  destruct (truthy (getProp (getProp record "user") "username"));
    [|discriminate].
  destruct (truthy (getProp (getProp record "user") "id")); [|discriminate].
  reflexivity.
Qed.

Lemma initializeSession_discards P depth s :
  isInitialized (this s) = false ->
  (forall record, persistedRecord P s = Some record ->
                  structurallyComplete record = false) ->
  exists s', initializeSession P depth s = Normal false s'
             /\ loggedOutAfterInitialisation P s'.
Proof.
  intros Hinit Hbad. unfold initializeSession. rewrite Hinit.
  assert (Hfinal : forall s2, exists s',
    Normal false (withThis (setIsInitialized true) (clearSession P s2))
    = Normal false s' /\ loggedOutAfterInitialisation P s').
  { intros s2. eexists. split; [reflexivity|].
    destruct (clearSession_cleared P s2) as (Hg & Hu & He).
    split; [exact Hg|]. split; [exact Hu|]. split; [exact He|].
    split; [reflexivity|].
    intros depth'. apply isAuthenticated_no_user. exact Hu. }
  unfold getStoredSession, persistedRecord in *.
  destruct (getItem SESSION_KEY s) as [text|]; [|apply Hfinal].
  destruct (String.eqb text ""); [apply Hfinal|].
  destruct (JSON_parse P text) as [record|]; [|apply Hfinal].
  specialize (Hbad record eq_refl).
  destruct (truthy record); [|apply Hfinal].
  destruct (isSessionValid P record s) as [valid s2] eqn:Hvalid.
  destruct valid; [|apply Hfinal].
  pose proof (isSessionValid_complete P record s) as Hc. rewrite Hvalid in Hc.
  specialize (Hc eq_refl). congruence.
Qed.

(** C5.  When the text under the session key does not parse to a
    structurally complete record (no text, no JSON, or a record without
    [user], [expiry], [user.username] or [user.id]), initialisation, be
    it a call of [initializeSession] on a manager not yet initialised, the
    constructor on page load or [refreshSession], returns false, removes
    the storage key and leaves the manager unauthenticated:
    [isAuthenticated()] returns false.  So whenever the key is still in
    storage after initialisation, the record found there was structurally
    complete. *)
Theorem initialization_discards_incomplete_record P depth s :
  ((forall record, persistedRecord P s = Some record ->
                   structurallyComplete record = false) ->
   (isInitialized (this s) = false ->
    exists s', initializeSession P depth s = Normal false s'
               /\ loggedOutAfterInitialisation P s')
   /\ (exists s', construct P depth (browser s) = Normal false s'
                  /\ loggedOutAfterInitialisation P s')
   /\ (exists s', refreshSession P depth s = Normal false s'
                  /\ loggedOutAfterInitialisation P s'))
  /\ (isInitialized (this s) = false ->
      forall restored s',
        initializeSession P depth s = Normal restored s' ->
        is_Some (getItem SESSION_KEY s') ->
        exists record, persistedRecord P s = Some record
                       /\ structurallyComplete record = true).
Proof.
  split.
  - intros Hbad. split; [|split].
    + intros Hinit. by apply initializeSession_discards.
    + unfold construct. cbn [Date_now].
      apply initializeSession_discards; [reflexivity|exact Hbad].
    + unfold refreshSession.
      apply initializeSession_discards; [reflexivity|exact Hbad].
  - intros Hinit restored s' Hrun [text Htext].
    destruct (persistedRecord P s) as [record|] eqn:Hrec.
    + destruct (structurallyComplete record) eqn:Hc; [eauto|].
      destruct (initializeSession_discards P depth s Hinit)
        as (s'' & Hrun' & Hg & _).
      { rewrite Hrec. intros r [= <-]. exact Hc. }
      rewrite Hrun in Hrun'. injection Hrun' as _ ->. congruence.
    + destruct (initializeSession_discards P depth s Hinit)
        as (s'' & Hrun' & Hg & _).
      { rewrite Hrec. discriminate. }
      rewrite Hrun in Hrun'. injection Hrun' as _ ->. congruence.
Qed.

Lemma initialization_discards_incomplete_record_witness :
  ((forall record,
      persistedRecord Sample.ticking Sample.corruptState = Some record ->
      structurallyComplete record = false)
   /\ persistedRecord Sample.ticking Sample.corruptState
      = Some (Sample.record Sample.nameOnly 1700086400000 1700000000000)
   /\ isInitialized (this Sample.corruptState) = false
   /\ exists s',
        initializeSession Sample.ticking 0 Sample.corruptState = Normal false s'
        /\ loggedOutAfterInitialisation Sample.ticking s')
  /\ (isInitialized (this Sample.returningState) = false
      /\ (exists s',
            initializeSession Sample.ticking 1 Sample.returningState
            = Normal true s'
            /\ is_Some (getItem SESSION_KEY s'))
      /\ exists record,
           persistedRecord Sample.ticking Sample.returningState = Some record
           /\ structurallyComplete record = true).
Proof.
  assert (Hbad : forall record,
     persistedRecord Sample.ticking Sample.corruptState = Some record ->
     structurallyComplete record = false).
  { intros record H. vm_compute in H. injection H as <-. reflexivity. }
  assert (Hrun : initializeSession Sample.ticking 1 Sample.returningState
                 = Normal true
                     (mkState (mkManager Sample.henry (JNum 1700086400004)
                                         (JNum 1700000000003) true)
                              (mkBrowser (<[SESSION_KEY := Sample.henryText]> ∅)
                                         5 0 1 Sample.dashboard
                                         "/admin-dashboard.html" None)))
    by (vm_compute; reflexivity).
  assert (Hkept : is_Some (getItem SESSION_KEY
                     (mkState (mkManager Sample.henry (JNum 1700086400004)
                                         (JNum 1700000000003) true)
                              (mkBrowser (<[SESSION_KEY := Sample.henryText]> ∅)
                                         5 0 1 Sample.dashboard
                                         "/admin-dashboard.html" None))))
    by (eexists; reflexivity).
  split.
  - split; [exact Hbad|]. split; [reflexivity|]. split; [reflexivity|].
    apply (proj1 (proj1 (initialization_discards_incomplete_record
                           Sample.ticking 0 Sample.corruptState) Hbad) eq_refl).
  - split; [reflexivity|]. split; [eexists; split; [exact Hrun|exact Hkept]|].
    apply (proj2 (initialization_discards_incomplete_record
                    Sample.ticking 1 Sample.returningState)
                 eq_refl true _ Hrun Hkept).
Defined.

(** ** The component loader *)

Lemma errorMarkup_includes (name message : string) :
  includes ("Unable to load " ++ name) (errorMarkup name message) = true.
Proof.
  unfold errorMarkup.
  do 9 apply includes_app_r.
  match goal with
  | |- includes _ (_ ++ name ++ ?rest) = true =>
      change (includes ("Unable to load " ++ name)
                       ("<p>" ++ ("Unable to load " ++ name) ++ rest) = true)
  end.
  apply includes_app_r, includes_here.
Qed.

Section LoaderProofs.

Variable P : Platform.

Lemma showLoadError_ids id name message d :
  elemId <$> showLoadError id name message d = elemId <$> d.
Proof.
  unfold showLoadError. destruct (getElementById id d); [|reflexivity].
  by apply fmap_alter_same.
Qed.

Lemma showLoadError_content id name message d n :
  getElementById id d = Some n ->
  contentAt (showLoadError id name message d) n
  = Some (Html (errorMarkup name message)).
Proof.
  intros H. unfold showLoadError. rewrite H.
  destruct (getElementById_lookup _ _ _ H) as (e & He & _).
  apply contentAt_setInnerHTML. eauto.
Qed.

Lemma showLoadError_other id name message d n m :
  getElementById id d = Some n -> n <> m ->
  contentAt (showLoadError id name message d) m = contentAt d m.
Proof.
  intros H Hne. unfold showLoadError. rewrite H. by apply contentAt_alter_ne.
Qed.

(** C10.  Whatever the container id, the path and the outcome of the
    request (rejected, answered with a status outside 200..299, answered
    but with an unreadable body, or answered and read), a call of
    [loadHTMLComponent] settles with a boolean after at most two
    continuations, and the boolean is true exactly when the container
    exists and the request succeeded with an OK status. *)
Theorem loadHTMLComponent_always_settles path id name d :
  exists result d',
    loadHTMLComponent P path id name d = (result, d')
    /\ (let (t, d1) := start path id name d in
        let (t', d2) := resume P t d1 in
        resume P t' d2) = (Settled result, d')
    /\ (result = true <->
        is_Some (getElementById id d) /\ fetchSucceeded (fetch P path) = true).
Proof.
  unfold loadHTMLComponent, start.
  destruct (getElementById id d) as [n|] eqn:Hn.
  - unfold finish, resume, afterFetch, fetchSucceeded.
    destruct (fetch P path) as [message|status statusText [html|message]];
      [|destruct (responseOk status)..]; cbn;
      eexists _, _; (split; [reflexivity|]); (split; [reflexivity|]);
      (split; [try discriminate; eauto
              |try (intros [_ Hf]; discriminate Hf); reflexivity]).
  - cbn. eexists _, _. split; [reflexivity|]. split; [reflexivity|].
    split; [discriminate | intros [[? Hn'] _]; discriminate Hn'].
Qed.

Section Scenario.

Variables (d0 : list Element) (h f : nat).
Variables (headerMarkup statusTextH statusTextF : string) (bodyF : BodyRead).

Hypothesis fetchHeader :
  fetch P headerPath = Response 200 statusTextH (BodyText headerMarkup).
Hypothesis fetchFooter : fetch P footerPath = Response 404 statusTextF bodyF.
Hypothesis headerContainer : getElementById headerContainerId d0 = Some h.
Hypothesis footerContainer : getElementById footerContainerId d0 = Some f.

Abbreviation footerError :=
  (errorMarkup "footer" ("HTTP 404: " ++ statusTextF)).
Abbreviation inProgress := (loading d0 h f headerMarkup footerError).

Lemma distinct_containers : h <> f.
Proof. eapply getElementById_distinct; eauto; discriminate. Qed.

Lemma loading_lookup header footer d :
  inProgress header footer d ->
  getElementById headerContainerId d = Some h
  /\ getElementById footerContainerId d = Some f
  /\ is_Some (d !! h) /\ is_Some (d !! f).
Proof.
  intros (Hids & _ & _).
  pose proof (getElementById_ids headerContainerId _ _ Hids) as E1.
  pose proof (getElementById_ids footerContainerId _ _ Hids) as E2.
  rewrite headerContainer in E1. rewrite footerContainer in E2.
  destruct (getElementById_lookup _ _ _ E1) as (e1 & ? & _).
  destruct (getElementById_lookup _ _ _ E2) as (e2 & ? & _).
  eauto.
Qed.

Lemma loading_resume_header header footer d :
  inProgress header footer d ->
  inProgress (fst (resume P header d)) footer (snd (resume P header d)).
Proof.
  intros Hl. destruct (loading_lookup _ _ _ Hl) as (Hh & Hf & Hsh & Hsf).
  destruct Hl as (Hids & Hhead & Hfoot).
  pose proof distinct_containers as Hne.
  destruct Hhead as [-> | [-> | [-> Hc]]].
  - cbn. unfold afterFetch. rewrite fetchHeader. cbn.
    split; [exact Hids|]. split; [right; left; reflexivity|exact Hfoot].
  - cbn. split; [rewrite fmap_alter_same by reflexivity; exact Hids|].
    split.
    + right; right. split; [reflexivity|]. by apply contentAt_setInnerHTML.
    + destruct Hfoot as [-> | [-> Hc]]; [left; reflexivity|right].
      split; [reflexivity|]. rewrite contentAt_alter_ne by exact Hne. exact Hc.
  - cbn. split; [exact Hids|]. split; [right; right; auto|exact Hfoot].
Qed.

Lemma loading_resume_footer header footer d :
  inProgress header footer d ->
  inProgress header (fst (resume P footer d)) (snd (resume P footer d)).
Proof.
  intros Hl. destruct (loading_lookup _ _ _ Hl) as (Hh & Hf & Hsh & Hsf).
  destruct Hl as (Hids & Hhead & Hfoot).
  pose proof distinct_containers as Hne.
  destruct Hfoot as [-> | [-> Hc]].
  - cbn. unfold afterFetch. rewrite fetchFooter. cbn.
    split; [rewrite showLoadError_ids; exact Hids|]. split.
    + destruct Hhead as [-> | [-> | [-> Hc]]];
        [left; reflexivity|right; left; reflexivity|].
      right; right. split; [reflexivity|].
      rewrite (showLoadError_other _ _ _ _ f h) by auto. exact Hc.
    + right. split; [reflexivity|]. by apply showLoadError_content.
  - cbn. split; [exact Hids|]. split; [exact Hhead|right; auto].
Qed.

Lemma loading_interleave schedule : forall header footer d,
  inProgress header footer d ->
  let '(header', footer', d') := interleave P schedule header footer d in
  inProgress header' footer' d'.
Proof.
  induction schedule as [|[|] rest IH]; intros header footer d Hl; cbn.
  - exact Hl.
  - pose proof (loading_resume_header _ _ _ Hl) as Hs.
    destruct (resume P header d) as [header' d']. apply IH. exact Hs.
  - pose proof (loading_resume_footer _ _ _ Hl) as Hs.
    destruct (resume P footer d) as [footer' d']. apply IH. exact Hs.
Qed.

Lemma loading_finish_header header footer d :
  inProgress header footer d ->
  exists d', finish P header d = (true, d')
             /\ inProgress (Settled true) footer d'.
Proof.
  intros Hl. pose proof (loading_resume_header _ _ _ Hl) as Hstep.
  destruct Hl as (Hids & Hhead & Hfoot).
  destruct Hhead as [-> | [-> | [-> Hc]]].
  - cbn in *. unfold afterFetch in *. rewrite fetchHeader in *. cbn in *.
    pose proof (loading_resume_header _ _ _ Hstep) as Hstep'.
    eexists. split; [reflexivity|exact Hstep'].
  - eexists. split; [reflexivity|exact Hstep].
  - eexists. split; [reflexivity|exact Hstep].
Qed.

Lemma loading_finish_footer header footer d :
  inProgress header footer d ->
  exists d', finish P footer d = (false, d')
             /\ inProgress header (Settled false) d'.
Proof.
  intros Hl. pose proof (loading_resume_footer _ _ _ Hl) as Hstep.
  destruct Hl as (Hids & Hhead & Hfoot).
  destruct Hfoot as [-> | [-> Hc]].
  - cbn in *. unfold afterFetch in *. rewrite fetchFooter in *. cbn in *.
    eexists. split; [reflexivity|exact Hstep].
  - eexists. split; [reflexivity|exact Hstep].
Qed.

Lemma loading_start :
  let (header, d1) := start headerPath headerContainerId "header" d0 in
  let (footer, d2) := start footerPath footerContainerId "footer" d1 in
  inProgress header footer d2.
Proof.
  unfold start. rewrite headerContainer.
  rewrite getElementById_alter by reflexivity. rewrite footerContainer.
  split; [|split].
  - rewrite !fmap_alter_same by reflexivity. reflexivity.
  - left; reflexivity.
  - left; reflexivity.
Qed.

Lemma loading_features d :
  inProgress (Settled true) (Settled false) d ->
  inProgress (Settled true) (Settled false) (initializeComponentFeatures d).
Proof.
  intros Hl. destruct (loading_lookup _ _ _ Hl) as (Hh & Hf & _ & _).
  destruct Hl as (Hids & Hhead & Hfoot).
  unfold initializeComponentFeatures, updateNextMeetingDate.
  destruct (getElementById "nextMeeting" d) as [m|] eqn:Hm;
    [|repeat split; assumption].
  assert (m <> h) by (eapply getElementById_distinct; eauto; discriminate).
  assert (m <> f) by (eapply getElementById_distinct; eauto; discriminate).
  split; [rewrite fmap_alter_same by reflexivity; exact Hids|].
  split.
  - destruct Hhead as [Hx | [Hx | [_ Hc]]]; try discriminate Hx.
    right; right. split; [reflexivity|]. by rewrite contentAt_alter_ne.
  - destruct Hfoot as [Hx | [_ Hc]]; try discriminate Hx.
    right. split; [reflexivity|]. by rewrite contentAt_alter_ne.
Qed.

Lemma loadAllComponents_scenario schedule :
  exists d',
    loadAllComponents P schedule d0 = (true, false, d')
    /\ inProgress (Settled true) (Settled false) d'.
Proof.
  unfold loadAllComponents. pose proof loading_start as Hs.
  destruct (start headerPath _ _ d0) as [header d1].
  destruct (start footerPath _ _ d1) as [footer d2].
  pose proof (loading_interleave schedule _ _ _ Hs) as Hi.
  destruct (interleave P schedule header footer d2) as [[header' footer'] d3].
  destruct (loading_finish_header _ _ _ Hi) as (d4 & -> & H4).
  destruct (loading_finish_footer _ _ _ H4) as (d5 & -> & H5).
  eexists. split; [reflexivity|]. by apply loading_features.
Qed.

Lemma loadAllComponents_contents schedule :
  exists d',
    loadAllComponents P schedule d0 = (true, false, d')
    /\ contentAt d' h = Some (Html headerMarkup)
    /\ contentAt d' f = Some (Html footerError)
    /\ getElementById headerContainerId d' = Some h
    /\ getElementById footerContainerId d' = Some f.
Proof.
  destruct (loadAllComponents_scenario schedule) as (d' & Hrun & Hl).
  destruct (loading_lookup _ _ _ Hl) as (Hh' & Hf' & _ & _).
  destruct Hl as (_ & Hhead & Hfoot).
  destruct Hhead as [Hx | [Hx | [_ Hc]]]; try discriminate Hx.
  destruct Hfoot as [Hx | [_ Hc']]; try discriminate Hx.
  exists d'. auto.
Qed.

End Scenario.
End LoaderProofs.

(** C6.  When the request for footer.html is answered with HTTP 404 and
    the request for header.html with HTTP 200 and the body <div>H</div>,
    then on a page that has both containers, and whatever the order in
    which the two requests settle, [loadAllComponents] gets failure from
    the footer load and success from the header load; the footer
    container holds an error message that contains "Unable to load
    footer" and the header container holds <div>H</div> verbatim.  Each
    load called on its own gives the same result. *)
Theorem footer_404_does_not_stop_header P schedule d h f
  statusTextH statusTextF bodyF :
  fetch P headerPath = Response 200 statusTextH (BodyText "<div>H</div>") ->
  fetch P footerPath = Response 404 statusTextF bodyF ->
  getElementById headerContainerId d = Some h ->
  getElementById footerContainerId d = Some f ->
  (exists d' message,
     loadAllComponents P schedule d = (true, false, d')
     /\ contentAt d' h = Some (Html "<div>H</div>")
     /\ contentAt d' f = Some (Html message)
     /\ includes "Unable to load footer" message = true
     /\ getElementById headerContainerId d' = Some h
     /\ getElementById footerContainerId d' = Some f)
  /\ (exists d' message,
        loadHTMLComponent P footerPath footerContainerId "footer" d
        = (false, d')
        /\ contentAt d' f = Some (Html message)
        /\ includes "Unable to load footer" message = true)
  /\ (exists d',
        loadHTMLComponent P headerPath headerContainerId "header" d
        = (true, d')
        /\ contentAt d' h = Some (Html "<div>H</div>")).
Proof.
  intros Hh Hf Hch Hcf. split; [|split].
  - destruct (loadAllComponents_contents P d h f _ _ _ _ Hh Hf Hch Hcf schedule)
      as (d' & Hrun & Hc & Hc' & Hh' & Hf').
    exists d', (errorMarkup "footer" ("HTTP 404: " ++ statusTextF)).
    split; [exact Hrun|]. split; [exact Hc|]. split; [exact Hc'|].
    split; [apply (errorMarkup_includes "footer")|]. split; assumption.
  - unfold loadHTMLComponent, start. rewrite Hcf. cbn [finish].
    unfold afterFetch. rewrite Hf. cbn.
    eexists _, _. split; [reflexivity|]. split.
    + apply showLoadError_content.
      rewrite getElementById_alter by reflexivity. exact Hcf.
    + apply (errorMarkup_includes "footer").
  - unfold loadHTMLComponent, start. rewrite Hch. cbn [finish].
    unfold afterFetch. rewrite Hh. cbn.
    eexists. split; [reflexivity|].
    destruct (getElementById_lookup _ _ _ Hch) as (e & He & _).
    apply contentAt_setInnerHTML.
    rewrite list_lookup_alter_eq, He. eauto.
Qed.

Lemma footer_404_does_not_stop_header_witness :
  fetch Sample.ticking headerPath = Response 200 "OK" (BodyText "<div>H</div>")
  /\ fetch Sample.ticking footerPath
     = Response 404 "Not Found" (BodyText "<h1>Not Found</h1>")
  /\ getElementById headerContainerId Sample.sitePage = Some 0%nat
  /\ getElementById footerContainerId Sample.sitePage = Some 2%nat
  /\ (exists d' message,
        loadAllComponents Sample.ticking [false; true; false; true]
                          Sample.sitePage = (true, false, d')
        /\ contentAt d' 0 = Some (Html "<div>H</div>")
        /\ contentAt d' 2 = Some (Html message)
        /\ includes "Unable to load footer" message = true
        /\ getElementById headerContainerId d' = Some 0%nat
        /\ getElementById footerContainerId d' = Some 2%nat).
Proof.
  split; [reflexivity|]. split; [reflexivity|].
  split; [reflexivity|]. split; [reflexivity|].
  apply (proj1 (footer_404_does_not_stop_header Sample.ticking
                  [false; true; false; true] Sample.sitePage 0 2
                  "OK" "Not Found" (BodyText "<h1>Not Found</h1>")
                  eq_refl eq_refl eq_refl eq_refl)).
Defined.

(** * Further properties of the session manager *)

(** ** The check and the activity update *)

Lemma isAuthenticated_true_state P depth s s' :
  isAuthenticated P depth s = Normal true s' ->
  s' = snd (Date_now P (snd (Date_now P s))).
Proof.
  destruct depth as [|depth]; [discriminate|].
  cbn [isAuthenticated]. destruct (_ || _); [discriminate|].
  cbn [Date_now]. destruct (jsGe _ _ _); [discriminate|].
  destruct (jsElapsedGt _ _ _ _).
  - destruct (showInactivityWarningWith _ _ _); discriminate.
  - intros [= <-]. reflexivity.
Qed.

Lemma isAuthenticated_true_user P depth s s' :
  isAuthenticated P depth s = Normal true s' ->
  truthy (currentUser (this s)) = true.
Proof.
  destruct depth as [|depth]; [discriminate|]. cbn [isAuthenticated].
  destruct (truthy (currentUser (this s))); [reflexivity|discriminate].
Qed.

(** X1.  A call of [isAuthenticated()] that returns true has changed
    nothing: the manager's fields, localStorage, the document and the
    location are as before, no dialog was shown and nothing was written;
    it has read the clock twice. *)
Theorem isAuthenticated_success_changes_nothing P depth s s' :
  isAuthenticated P depth s = Normal true s' ->
  this s' = this s
  /\ localStorage (browser s') = localStorage (browser s)
  /\ document (browser s') = document (browser s)
  /\ navigation (browser s') = navigation (browser s)
  /\ prompts (browser s') = prompts (browser s)
  /\ writes (browser s') = writes (browser s)
  /\ clockReads (browser s') = S (S (clockReads (browser s))).
Proof.
  intros H. rewrite (isAuthenticated_true_state _ _ _ _ H).
  repeat split.
Qed.

Lemma isAuthenticated_success_changes_nothing_witness :
  exists s',
    isAuthenticated Sample.alwaysOk 1 Sample.activeState = Normal true s'
    /\ this s' = this Sample.activeState
    /\ localStorage (browser s') = localStorage (browser Sample.activeState)
    /\ document (browser s') = document (browser Sample.activeState)
    /\ navigation (browser s') = navigation (browser Sample.activeState)
    /\ prompts (browser s') = prompts (browser Sample.activeState)
    /\ writes (browser s') = writes (browser Sample.activeState)
    /\ clockReads (browser s') = S (S (clockReads (browser Sample.activeState))).
Proof.
  eexists.
  assert (H : isAuthenticated Sample.alwaysOk 1 Sample.activeState
              = Normal true _) by (vm_compute; reflexivity).
  split; [exact H|].
  apply (isAuthenticated_success_changes_nothing Sample.alwaysOk 1
           Sample.activeState _ H).
Defined.

Lemma updateActivity_authenticated P depth s s1 text fields :
  isAuthenticated P depth s = Normal true s1 ->
  getItem SESSION_KEY s = Some text -> text <> "" ->
  JSON_parse P text = Some (JObj fields) ->
  let now := dateNow P (2 + clockReads (browser s)) in
  let now' := dateNow P (3 + clockReads (browser s)) in
  exists s',
    updateActivity P depth s = Normal tt s'
    /\ currentUser (this s') = currentUser (this s)
    /\ lastActivity (this s') = JNum now
    /\ sessionExpiry (this s') = JNum (now' + SESSION_TIMEOUT)
    /\ getItem SESSION_KEY s'
       = Some (match JSON_stringify P
                       (JObj (<["expiry" := JNum (now' + SESSION_TIMEOUT)]>
                              (<["lastActivity" := JNum now]> fields))) with
               | Some text' =>
                   if setItemOk P (writes (browser s)) then text' else text
               | None => text
               end).
Proof.
  intros Hauth Htext Hne Hparse now now'.
  pose proof (isAuthenticated_true_state _ _ _ _ Hauth) as ->.
  unfold updateActivity, updateActivityWith. rewrite Hauth.
  cbn [bind Date_now]. unfold getStoredSession, getItem in *.
  cbn [withThis withBrowser browser this localStorage snd Date_now] in *.
  rewrite Htext.
  destruct (String.eqb text "") eqn:E;
    [apply String.eqb_eq in E; contradiction|].
  rewrite Hparse.
  cbn [truthy setProp Date_now withBrowser withThis browser this lastActivity
       setLastActivity clockReads].
  unfold getProp. rewrite lookup_insert_eq. fold now now'.
  destruct (JSON_stringify P _) as [text'|].
  - unfold setItem. cbn [withBrowser withThis browser this writes].
    eexists. split; [reflexivity|]. cbn. repeat split.
    destruct (setItemOk P _); [by rewrite lookup_insert_eq|exact Htext].
  - eexists. split; [reflexivity|]. cbn. repeat split. exact Htext.
Qed.

(** X2.  On an authenticated session whose stored record is a JSON
    object, [updateActivity()] sets [lastActivity] to the clock reading
    and moves the expiry to a later reading plus the full 24 hours, in
    memory and, when the record is serialised and the write succeeds, in
    the stored record (all other fields of the record kept); when
    [JSON.stringify] or the write throws, the stored text stays as it
    was. *)
Theorem updateActivity_slides_the_expiry P depth s s1 text fields :
  isAuthenticated P depth s = Normal true s1 ->
  getItem SESSION_KEY s = Some text -> text <> "" ->
  JSON_parse P text = Some (JObj fields) ->
  let now := dateNow P (2 + clockReads (browser s)) in
  let now' := dateNow P (3 + clockReads (browser s)) in
  exists s',
    updateActivity P depth s = Normal tt s'
    /\ currentUser (this s') = currentUser (this s)
    /\ lastActivity (this s') = JNum now
    /\ sessionExpiry (this s') = JNum (now' + SESSION_TIMEOUT)
    /\ getItem SESSION_KEY s'
       = Some (match JSON_stringify P
                       (JObj (<["expiry" := JNum (now' + SESSION_TIMEOUT)]>
                              (<["lastActivity" := JNum now]> fields))) with
               | Some text' =>
                   if setItemOk P (writes (browser s)) then text' else text
               | None => text
               end).
Proof. exact (updateActivity_authenticated P depth s s1 text fields). Qed.

Lemma updateActivity_slides_the_expiry_witness :
  exists s1 fields,
    isAuthenticated Sample.alwaysOk 1 Sample.activeState = Normal true s1
    /\ getItem SESSION_KEY Sample.activeState = Some Sample.henryText
    /\ Sample.henryText <> ""
    /\ JSON_parse Sample.alwaysOk Sample.henryText = Some (JObj fields)
    /\ exists s',
         updateActivity Sample.alwaysOk 1 Sample.activeState = Normal tt s'
         /\ currentUser (this s') = currentUser (this Sample.activeState)
         /\ lastActivity (this s') = JNum 1700003600000
         /\ sessionExpiry (this s') = JNum (1700003600000 + SESSION_TIMEOUT)
         /\ getItem SESSION_KEY s'
            = Some (match JSON_stringify Sample.alwaysOk
                            (JObj (<["expiry" := JNum (1700003600000
                                                       + SESSION_TIMEOUT)]>
                                   (<["lastActivity" := JNum 1700003600000]>
                                    fields))) with
                    | Some text' => text'
                    | None => Sample.henryText
                    end).
Proof.
  eexists _, _.
  assert (H : isAuthenticated Sample.alwaysOk 1 Sample.activeState
              = Normal true _) by (vm_compute; reflexivity).
  assert (Hne : Sample.henryText <> "") by discriminate.
  assert (Hp : JSON_parse Sample.alwaysOk Sample.henryText = Some (JObj _))
    by reflexivity.
  split; [exact H|]. split; [reflexivity|]. split; [exact Hne|].
  split; [exact Hp|].
  apply (updateActivity_slides_the_expiry Sample.alwaysOk 1 Sample.activeState
           _ Sample.henryText _ H eq_refl Hne Hp).
Defined.

(** X3.  On an authenticated session whose record is no longer in
    localStorage, [updateActivity()] refreshes [lastActivity] only: the
    expiry is not moved, nothing is written, and the session is not put
    back into storage. *)
Theorem updateActivity_without_stored_record P depth s s1 :
  isAuthenticated P depth s = Normal true s1 ->
  getItem SESSION_KEY s = None ->
  exists s',
    updateActivity P depth s = Normal tt s'
    /\ lastActivity (this s') = JNum (dateNow P (2 + clockReads (browser s)))
    /\ sessionExpiry (this s') = sessionExpiry (this s)
    /\ getItem SESSION_KEY s' = None
    /\ writes (browser s') = writes (browser s).
Proof.
  intros Hauth Hnone.
  pose proof (isAuthenticated_true_state _ _ _ _ Hauth) as ->.
  unfold updateActivity, updateActivityWith. rewrite Hauth.
  cbn [bind Date_now]. unfold getStoredSession, getItem in *.
  cbn [withThis withBrowser browser this localStorage snd Date_now] in *.
  rewrite Hnone. cbn [truthy]. eexists. split; [reflexivity|].
  cbn. auto.
Qed.

Lemma updateActivity_without_stored_record_witness :
  exists s1,
    isAuthenticated Sample.alwaysOk 1 Sample.unsavedState = Normal true s1
    /\ getItem SESSION_KEY Sample.unsavedState = None
    /\ exists s',
         updateActivity Sample.alwaysOk 1 Sample.unsavedState = Normal tt s'
         /\ lastActivity (this s') = JNum 1700003600000
         /\ sessionExpiry (this s') = sessionExpiry (this Sample.unsavedState)
         /\ getItem SESSION_KEY s' = None
         /\ writes (browser s') = writes (browser Sample.unsavedState).
Proof.
  eexists.
  assert (H : isAuthenticated Sample.alwaysOk 1 Sample.unsavedState
              = Normal true _) by (vm_compute; reflexivity).
  split; [exact H|]. split; [reflexivity|].
  apply (updateActivity_without_stored_record Sample.alwaysOk 1
           Sample.unsavedState _ H eq_refl).
Defined.

(** X4.  On an authenticated session whose stored text parses to a truthy
    value that is not an object (a number, a string, true),
    [updateActivity()] ends in an uncaught TypeError: the assignment to
    [sessionData.lastActivity] stands outside the [try] block.  The
    stored text is left as it is. *)
Theorem updateActivity_throws_on_primitive_record P depth s s1 text record :
  isAuthenticated P depth s = Normal true s1 ->
  getItem SESSION_KEY s = Some text -> text <> "" ->
  JSON_parse P text = Some record ->
  truthy record = true ->
  (forall fields, record <> JObj fields) ->
  exists s', updateActivity P depth s = Abrupt TypeError s'
             /\ getItem SESSION_KEY s' = Some text.
Proof.
  intros Hauth Htext Hne Hparse Htruthy Hprim.
  pose proof (isAuthenticated_true_state _ _ _ _ Hauth) as ->.
  unfold updateActivity, updateActivityWith. rewrite Hauth.
  cbn [bind Date_now]. unfold getStoredSession, getItem in *.
  cbn [withThis withBrowser browser this localStorage snd Date_now] in *.
  rewrite Htext.
  destruct (String.eqb text "") eqn:E;
    [apply String.eqb_eq in E; contradiction|].
  rewrite Hparse, Htruthy.
  destruct record; try (eexists; split; [reflexivity|exact Htext]).
  exfalso. eapply Hprim. reflexivity.
Qed.

Lemma updateActivity_throws_on_primitive_record_witness :
  exists s1,
    isAuthenticated Sample.tampered 1 Sample.tamperedState = Normal true s1
    /\ getItem SESSION_KEY Sample.tamperedState = Some "42"
    /\ "42" <> ""
    /\ JSON_parse Sample.tampered "42" = Some (JNum 42)
    /\ truthy (JNum 42) = true
    /\ (forall fields, JNum 42 <> JObj fields)
    /\ exists s', updateActivity Sample.tampered 1 Sample.tamperedState
                  = Abrupt TypeError s'
                  /\ getItem SESSION_KEY s' = Some "42".
Proof.
  eexists.
  assert (H : isAuthenticated Sample.tampered 1 Sample.tamperedState
              = Normal true _) by (vm_compute; reflexivity).
  assert (Hne : "42" <> "") by discriminate.
  assert (Hprim : forall fields, JNum 42 <> JObj fields) by discriminate.
  split; [exact H|]. split; [reflexivity|]. split; [exact Hne|].
  split; [reflexivity|]. split; [reflexivity|]. split; [exact Hprim|].
  apply (updateActivity_throws_on_primitive_record Sample.tampered 1
           Sample.tamperedState _ "42" (JNum 42) H eq_refl Hne eq_refl eq_refl
           Hprim).
Defined.

(** ** Logout *)

(** X5.  [logout(redirect)] always clears the session (no stored record,
    no user, no expiry).  With [redirect] set on a page other than the
    dashboard it navigates to admin-dashboard.html and leaves the document
    alone; otherwise it does not navigate and shows the login form. *)
Theorem logout_clears_then_redirects_or_shows_login P redirect s :
  let s' := logout P redirect s in
  getItem SESSION_KEY s' = None
  /\ currentUser (this s') = JNull
  /\ sessionExpiry (this s') = JNull
  /\ if redirect
        && negb (includes "admin-dashboard.html" (pathname (browser s)))
     then navigation (browser s') = Some "admin-dashboard.html"
          /\ document (browser s') = document (browser s)
     else navigation (browser s') = navigation (browser s)
          /\ containersShow false (document (browser s))
                            (document (browser s')).
Proof.
  cbv zeta. unfold logout.
  destruct (clearSession_cleared P s) as (Hg & Hu & He).
  assert (Hp : pathname (browser (clearSession P s)) = pathname (browser s))
    by (destruct_state s; reflexivity).
  assert (Hd : document (browser (clearSession P s)) = document (browser s))
    by (destruct_state s; reflexivity).
  assert (Hn : navigation (browser (clearSession P s)) = navigation (browser s))
    by (destruct_state s; reflexivity).
  rewrite Hp. destruct (redirect && _).
  - unfold getItem in *. cbn. auto.
  - destruct (showLoginForm_frame (clearSession P s)) as [Hthis Hstore].
    unfold getItem in *. rewrite Hthis, Hstore.
    split; [exact Hg|]. split; [exact Hu|]. split; [exact He|]. split.
    + rewrite <- Hn. unfold showLoginForm.
      destruct (getElementById _ _); [destruct (getElementById _ _)|];
        reflexivity.
    + rewrite <- Hd. apply showLoginForm_shows.
Qed.

(** ** Page load *)

(** X6.  A stored record whose expiry is not after the clock reading of
    the validity check is discarded when the manager initialises: the call
    returns false, the key is removed and the manager is logged out. *)
Theorem expired_record_is_discarded_on_load P depth s record expiry :
  isInitialized (this s) = false ->
  persistedRecord P s = Some record ->
  toNumber P (getProp record "expiry") = Some expiry ->
  expiry <= dateNow P (clockReads (browser s)) ->
  exists s', initializeSession P depth s = Normal false s'
             /\ loggedOutAfterInitialisation P s'.
Proof.
  intros Hinit Hrec Hnum Hle. unfold initializeSession. rewrite Hinit.
  assert (Hfinal : forall s2, exists s',
    Normal false (withThis (setIsInitialized true) (clearSession P s2))
    = Normal false s' /\ loggedOutAfterInitialisation P s').
  { intros s2. eexists. split; [reflexivity|].
    destruct (clearSession_cleared P s2) as (Hg & Hu & He).
    split; [exact Hg|]. split; [exact Hu|]. split; [exact He|].
    split; [reflexivity|].
    intros depth'. apply isAuthenticated_no_user. exact Hu. }
  unfold getStoredSession, persistedRecord in *.
  destruct (getItem SESSION_KEY s) as [text|]; [|discriminate].
  destruct (String.eqb text ""); [apply Hfinal|].
  rewrite Hrec.
  destruct (truthy record); [|apply Hfinal].
  unfold isSessionValid. destruct (_ || _); [apply Hfinal|].
  cbn [Date_now]. unfold jsGe. rewrite Hnum.
  replace (expiry <=? _)%Z with true by (symmetry; apply Z.leb_le; exact Hle).
  apply Hfinal.
Qed.

Lemma expired_record_is_discarded_on_load_witness :
  isInitialized (this Sample.returningState) = false
  /\ persistedRecord Sample.dayLater Sample.returningState
     = Some (Sample.record Sample.henry 1700086400000 1700000000000)
  /\ toNumber Sample.dayLater
       (getProp (Sample.record Sample.henry 1700086400000 1700000000000)
                "expiry") = Some 1700086400000
  /\ 1700086400000
     <= dateNow Sample.dayLater (clockReads (browser Sample.returningState))
  /\ exists s',
       initializeSession Sample.dayLater 0 Sample.returningState
       = Normal false s'
       /\ loggedOutAfterInitialisation Sample.dayLater s'.
Proof.
  assert (Hle : 1700086400000
     <= dateNow Sample.dayLater (clockReads (browser Sample.returningState)))
    by (simpl; lia).
  split; [reflexivity|]. split; [reflexivity|]. split; [reflexivity|].
  split; [exact Hle|].
  apply (expired_record_is_discarded_on_load Sample.dayLater 0
           Sample.returningState
           (Sample.record Sample.henry 1700086400000 1700000000000)
           1700086400000 eq_refl eq_refl eq_refl Hle).
Defined.

Lemma getProp_field fields k v :
  fields !! k = Some v -> getProp (JObj fields) k = v.
Proof. intros H. unfold getProp. rewrite H. reflexivity. Qed.

Lemma restore_valid_record P depth s text fields user expiry activity :
  isInitialized (this s) = false ->
  getItem SESSION_KEY s = Some text -> text <> "" ->
  JSON_parse P text = Some (JObj fields) ->
  fields !! "user" = Some user -> validUser user ->
  fields !! "expiry" = Some (JNum expiry) -> expiry <> 0 ->
  fields !! "lastActivity" = Some (JNum activity) -> activity <> 0 ->
  let n := clockReads (browser s) in
  dateNow P n < expiry ->
  dateNow P (1 + n) < expiry ->
  dateNow P (2 + n) - activity <= ACTIVITY_TIMEOUT ->
  exists s',
    initializeSession P (S depth) s = Normal true s'
    /\ currentUser (this s') = user
    /\ isInitialized (this s') = true
    /\ lastActivity (this s') = JNum (dateNow P (3 + n))
    /\ sessionExpiry (this s') = JNum (dateNow P (4 + n) + SESSION_TIMEOUT).
Proof.
  intros Hinit Htext Hne Hparse Hu [Hid Hname] He He0 Ha Ha0 n Hv Hlive Hact.
  pose proof (truthy_getProp _ _ Hid) as Huser.
  unfold initializeSession. rewrite Hinit.
  unfold getStoredSession. rewrite Htext.
  destruct (String.eqb text "") eqn:E;
    [apply String.eqb_eq in E; contradiction|].
  rewrite Hparse. cbn [truthy].
  unfold isSessionValid.
  rewrite !(getProp_field _ _ _ Hu), !(getProp_field _ _ _ He),
    !(getProp_field _ _ _ Ha).
  rewrite Huser, Hid, Hname. cbn [truthy].
  replace (expiry =? 0)%Z with false by (symmetry; by apply Z.eqb_neq).
  replace (activity =? 0)%Z with false by (symmetry; by apply Z.eqb_neq).
  cbn [negb orb Date_now]. unfold jsGe. cbn [toNumber]. fold n.
  replace (expiry <=? dateNow P n)%Z with false
    by (symmetry; apply Z.leb_gt; exact Hv).
  cbv iota.
  set (s6 := withThis (setLastActivity (JNum activity)) _).
  assert (Hauth : isAuthenticated P (S depth) s6
                  = Normal true (snd (Date_now P (snd (Date_now P s6))))).
  { apply (isAuthenticated_live P depth s6 expiry activity); try reflexivity;
      try assumption. }
  destruct (updateActivity_authenticated P (S depth) s6 _ text fields Hauth)
    as (s' & Hrun & Hcu & Hla & Hex & _); try assumption.
  rewrite Hrun. cbn [bind]. eexists. split; [reflexivity|].
  cbn [withThis this browser setIsInitialized currentUser isInitialized
       lastActivity sessionExpiry].
  split; [exact Hcu|]. split; [reflexivity|]. split; [exact Hla|exact Hex].
Qed.

(** X7.  A stored record that is a JSON object with a user that has id
    and username, a numeric expiry still ahead of the clock and a recent
    numeric [lastActivity] is restored when the manager initialises: the
    call returns true, the user in memory is the stored user, and the
    activity update that follows stamps [lastActivity] and moves the
    expiry to a clock reading plus 24 hours. *)
Theorem initializeSession_restores_valid_record P depth s text fields user
  expiry activity :
  isInitialized (this s) = false ->
  getItem SESSION_KEY s = Some text -> text <> "" ->
  JSON_parse P text = Some (JObj fields) ->
  fields !! "user" = Some user -> validUser user ->
  fields !! "expiry" = Some (JNum expiry) -> expiry <> 0 ->
  fields !! "lastActivity" = Some (JNum activity) -> activity <> 0 ->
  let n := clockReads (browser s) in
  dateNow P n < expiry ->
  dateNow P (1 + n) < expiry ->
  dateNow P (2 + n) - activity <= ACTIVITY_TIMEOUT ->
  exists s',
    initializeSession P (S depth) s = Normal true s'
    /\ currentUser (this s') = user
    /\ isInitialized (this s') = true
    /\ lastActivity (this s') = JNum (dateNow P (3 + n))
    /\ sessionExpiry (this s') = JNum (dateNow P (4 + n) + SESSION_TIMEOUT).
Proof.
  exact (restore_valid_record P depth s text fields user expiry activity).
Qed.

Lemma initializeSession_restores_valid_record_witness :
  exists s',
    initializeSession Sample.ticking 1 Sample.returningState = Normal true s'
    /\ currentUser (this s') = Sample.henry
    /\ isInitialized (this s') = true
    /\ lastActivity (this s') = JNum 1700000000003
    /\ sessionExpiry (this s') = JNum (1700000000004 + SESSION_TIMEOUT).
Proof.
  assert (Hne : Sample.henryText <> "") by discriminate.
  assert (Hv : validUser Sample.henry) by (split; reflexivity).
  assert (He0 : 1700086400000 <> 0) by discriminate.
  assert (Ha0 : 1700000000000 <> 0) by discriminate.
  apply (initializeSession_restores_valid_record Sample.ticking 0
           Sample.returningState Sample.henryText
           (<["user" := Sample.henry]>
            (<["loginTime" := JNum 1700000000000]>
             (<["expiry" := JNum 1700086400000]>
              (<["lastActivity" := JNum 1700000000000]> ∅))))
           Sample.henry 1700086400000 1700000000000
           eq_refl eq_refl Hne eq_refl eq_refl Hv eq_refl He0 eq_refl Ha0);
    simpl; unfold ACTIVITY_TIMEOUT; lia.
Defined.

(** X8.  A session survives a page load.  When [createSession(user)] has
    stored its record, JSON.parse gives the record back from the text
    JSON.stringify made of it, and the clock readings stay within one half
    hour of positive time, then a manager constructed on the next page
    restores the session: the constructor's initialisation returns true
    and the user in memory is the same user. *)
Theorem session_survives_a_page_load P user s depth t0 text :
  validUser user ->
  setItemOk P (writes (browser s)) = true ->
  0 < t0 ->
  readingsWithin P (clockReads (browser s)) 7 t0 ->
  let n := clockReads (browser s) in
  let data := sessionRecord user (dateNow P n)
                (dateNow P (1 + n) + SESSION_TIMEOUT) (dateNow P (2 + n)) in
  JSON_stringify P data = Some text ->
  text <> "" ->
  JSON_parse P text = Some data ->
  exists s1 s2,
    createSession P user s = (true, s1)
    /\ construct P (S depth) (browser s1) = Normal true s2
    /\ currentUser (this s2) = user
    /\ isInitialized (this s2) = true
    /\ lastActivity (this s2) = JNum (dateNow P (7 + n))
    /\ sessionExpiry (this s2) = JNum (dateNow P (8 + n) + SESSION_TIMEOUT).
Proof.
  intros Hvalid Hok Ht0 Hwin n data Htext Hne Hparse.
  assert (Hr : forall i, (i < 7)%nat ->
            t0 <= dateNow P (i + n) <= t0 + ACTIVITY_TIMEOUT).
  { intros i Hi. rewrite Nat.add_comm. apply Hwin. exact Hi. }
  pose proof (Hr 1%nat ltac:(lia)) as H1. pose proof (Hr 2%nat ltac:(lia)) as H2.
  pose proof (Hr 4%nat ltac:(lia)) as H4. pose proof (Hr 5%nat ltac:(lia)) as H5.
  pose proof (Hr 6%nat ltac:(lia)) as H6.
  destruct Hvalid as [Hid Hname].
  pose proof (truthy_getProp _ _ Hid) as Huser.
  unfold createSession. rewrite Huser, Hid, Hname. cbn [negb orb].
  cbn [Date_now withBrowser this browser clockReads]. fold n.
  change (JObj _) with data. rewrite Htext.
  cbn [setItem withBrowser this browser clockReads writes].
  rewrite Hok.
  match goal with |- context [(true, ?st)] => set (s1 := st) end.
  assert (Hload : exists s2,
    construct P (S depth) (browser s1) = Normal true s2
    /\ currentUser (this s2) = user
    /\ isInitialized (this s2) = true
    /\ lastActivity (this s2) = JNum (dateNow P (7 + n))
    /\ sessionExpiry (this s2) = JNum (dateNow P (8 + n) + SESSION_TIMEOUT)).
  { unfold construct. subst s1.
    cbn [Date_now withBrowser withThis this browser clockReads]. fold n.
    match goal with |- context [initializeSession P (S depth) ?st] =>
      destruct (restore_valid_record P depth st text
        (<["user" := user]> (<["loginTime" := JNum (dateNow P n)]>
          (<["expiry" := JNum (dateNow P (1 + n) + SESSION_TIMEOUT)]>
            (<["lastActivity" := JNum (dateNow P (2 + n))]> ∅))))
        user (dateNow P (1 + n) + SESSION_TIMEOUT) (dateNow P (2 + n)))
        as (s2 & Hrun & Hcu & Hin & Hla & Hex)
    end; try reflexivity; try assumption; try (by simplify_map_eq).
    - unfold getItem. cbn. apply lookup_insert_eq.
    - unfold SESSION_TIMEOUT. cbn [Nat.add] in *. lia.
    - cbn [Nat.add] in *. lia.
    - cbn. fold n. unfold SESSION_TIMEOUT, ACTIVITY_TIMEOUT in *.
      cbn [Nat.add] in *. lia.
    - cbn. fold n. unfold SESSION_TIMEOUT, ACTIVITY_TIMEOUT in *.
      cbn [Nat.add] in *. lia.
    - cbn. fold n. unfold ACTIVITY_TIMEOUT in *. cbn [Nat.add] in *. lia.
    - exists s2. rewrite Hrun. cbn in Hla, Hex. fold n in Hla, Hex. auto. }
  destruct Hload as (s2 & Hload). exists s1, s2.
  split; [reflexivity|exact Hload].
Qed.

Lemma session_survives_a_page_load_witness :
  exists s1 s2,
    createSession Sample.atLogin Sample.henry Sample.freshState = (true, s1)
    /\ construct Sample.atLogin 1 (browser s1) = Normal true s2
    /\ currentUser (this s2) = Sample.henry
    /\ isInitialized (this s2) = true
    /\ lastActivity (this s2) = JNum 1700000000000
    /\ sessionExpiry (this s2) = JNum (1700000000000 + SESSION_TIMEOUT).
Proof.
  assert (Hv : validUser Sample.henry) by (split; reflexivity).
  assert (Ht : 0 < 1700000000000) by lia.
  assert (Hw : readingsWithin Sample.atLogin
                 (clockReads (browser Sample.freshState)) 7 1700000000000).
  { intros i Hi. unfold ACTIVITY_TIMEOUT. simpl. lia. }
  assert (Hne : Sample.henryText <> "") by discriminate.
  apply (session_survives_a_page_load Sample.atLogin Sample.henry
           Sample.freshState 0 1700000000000 Sample.henryText
           Hv eq_refl Ht Hw eq_refl Hne eq_refl).
Defined.

(** ** Permissions *)

(** X9.  [hasPermission(role)] is false whenever the user is not
    authenticated; for an authenticated user whose role is admin it is
    true whatever role is asked for; for an authenticated user without a
    role it is false whatever role is asked for, admin included. *)
Theorem hasPermission_by_role P depth s :
  (forall s1 requiredRole,
     isAuthenticated P depth s = Normal false s1 ->
     hasPermission P depth requiredRole s = Normal false s1)
  /\ (forall s1 requiredRole,
        isAuthenticated P depth s = Normal true s1 ->
        getProp (currentUser (this s)) "role" = JStr "admin" ->
        hasPermission P depth requiredRole s = Normal true s1)
  /\ (forall s1 requiredRole,
        isAuthenticated P depth s = Normal true s1 ->
        getProp (currentUser (this s)) "role" = JUndefined ->
        hasPermission P depth requiredRole s = Normal false s1).
Proof.
  split; [|split]; intros s1 role Hauth; unfold hasPermission; rewrite Hauth;
    cbn [bind negb]; [reflexivity| |];
    pose proof (isAuthenticated_true_state _ _ _ _ Hauth) as ->;
    cbn [Date_now snd withBrowser this]; intros ->; [|reflexivity].
  rewrite orb_true_r. reflexivity.
Qed.

Lemma hasPermission_by_role_witness :
  (exists s1,
     isAuthenticated Sample.alwaysOk 1 Sample.freshState = Normal false s1
     /\ hasPermission Sample.alwaysOk 1 "admin" Sample.freshState
        = Normal false s1)
  /\ (exists s1,
        isAuthenticated Sample.alwaysOk 1 Sample.fordState = Normal true s1
        /\ getProp (currentUser (this Sample.fordState)) "role" = JStr "admin"
        /\ hasPermission Sample.alwaysOk 1 "editor" Sample.fordState
           = Normal true s1)
  /\ (exists s1,
        isAuthenticated Sample.alwaysOk 1 Sample.activeState = Normal true s1
        /\ getProp (currentUser (this Sample.activeState)) "role" = JUndefined
        /\ hasPermission Sample.alwaysOk 1 "admin" Sample.activeState
           = Normal false s1).
Proof.
  assert (H1 : isAuthenticated Sample.alwaysOk 1 Sample.freshState
               = Normal false Sample.freshState) by reflexivity.
  assert (H2 : isAuthenticated Sample.alwaysOk 1 Sample.fordState
               = Normal true (snd (Date_now Sample.alwaysOk
                                (snd (Date_now Sample.alwaysOk Sample.fordState)))))
    by (vm_compute; reflexivity).
  assert (H3 : isAuthenticated Sample.alwaysOk 1 Sample.activeState
               = Normal true (snd (Date_now Sample.alwaysOk
                                (snd (Date_now Sample.alwaysOk Sample.activeState)))))
    by (vm_compute; reflexivity).
  split; [|split]; eexists.
  - split; [exact H1|].
    apply (proj1 (hasPermission_by_role Sample.alwaysOk 1 Sample.freshState)
                 _ "admin" H1).
  - split; [exact H2|]. split; [reflexivity|].
    apply (proj1 (proj2 (hasPermission_by_role Sample.alwaysOk 1
                           Sample.fordState)) _ "editor" H2 eq_refl).
  - split; [exact H3|]. split; [reflexivity|].
    apply (proj2 (proj2 (hasPermission_by_role Sample.alwaysOk 1
                           Sample.activeState)) _ "admin" H3 eq_refl).
Defined.

(** ** What no sequence of calls does

    A relation between states that every elementary step of the manager
    respects is respected by every method, and so by every sequence of
    calls. *)

Section Frame.

Variable P : Platform.
Variable R : State -> State -> Prop.
Hypothesis R_refl : forall s, R s s.
Hypothesis R_trans : forall s1 s2 s3, R s1 s2 -> R s2 s3 -> R s1 s3.
Hypothesis R_noUser : forall s, R s (withThis (setCurrentUser JNull) s).
Hypothesis R_user :
  forall user s, validUser user -> R s (withThis (setCurrentUser user) s).
Hypothesis R_expiry : forall v s, R s (withThis (setSessionExpiry v) s).
Hypothesis R_activity : forall v s, R s (withThis (setLastActivity v) s).
Hypothesis R_initialized : forall b s, R s (withThis (setIsInitialized b) s).
Hypothesis R_document : forall d s, R s (withBrowser (setDocument d) s).
Hypothesis R_clock : forall s, R s (snd (Date_now P s)).
Hypothesis R_confirm : forall s, R s (snd (confirm P s)).
Hypothesis R_setItem : forall v s, R s (snd (setItem P SESSION_KEY v s)).
Hypothesis R_removeItem : forall s, R s (removeItem SESSION_KEY s).


Lemma frame_clearSession s : R s (clearSession P s).
Proof.
  unfold clearSession.
  eapply R_trans; [apply R_removeItem|].
  eapply R_trans; [apply R_noUser|].
  eapply R_trans; [apply R_expiry|].
  eapply R_trans; [apply R_clock|].
  cbn [Date_now]. apply R_activity.
Qed.

Lemma frame_showLoginForm s : R s (showLoginForm s).
Proof.
  unfold showLoginForm.
  destruct (getElementById _ _); [destruct (getElementById _ _)|]; auto.
Qed.

Lemma frame_updateUserDisplay s : R s (updateUserDisplay s).
Proof. unfold updateUserDisplay. destruct (truthy _); auto. Qed.

Lemma frame_showAdminContent s : R s (showAdminContent s).
Proof.
  unfold showAdminContent.
  destruct (getElementById _ _); [destruct (getElementById _ _)|]; auto.
  eapply R_trans; [apply R_document|apply frame_updateUserDisplay].
Qed.

Lemma frame_createSession user s : R s (snd (createSession P user s)).
Proof.
  unfold createSession.
  destruct (truthy user) eqn:Hu; [|apply R_refl].
  destruct (truthy (getProp user "username")) eqn:Hname; [|apply R_refl].
  destruct (truthy (getProp user "id")) eqn:Hid; [|apply R_refl].
  cbn [negb orb Date_now].
  match goal with |- context [(false, ?st)] =>
    assert (H3 : R s st)
      by (eapply R_trans; [apply R_clock|]; eapply R_trans; [apply R_clock|];
          apply R_clock)
  end.
  destruct (JSON_stringify P _) as [text|]; [|exact H3].
  match goal with |- context [setItem P ?k ?v ?st] =>
    pose proof (R_setItem v st) as Hw; destruct (setItem P k v st) as [ok s4] end.
  cbn [snd] in Hw.
  assert (Hpre : R s s4) by (eapply R_trans; eassumption).
  destruct ok; cbn [snd]; [|exact Hpre].
  eapply R_trans; [exact Hpre|].
  eapply R_trans; [apply (R_user user); split; assumption|].
  eapply R_trans; [apply R_expiry|]. apply R_activity.
Qed.

Lemma frame_getStoredSession s : R s (snd (getStoredSession P s)).
Proof.
  unfold getStoredSession. destruct (getItem _ _); [|apply R_refl].
  destruct (String.eqb _ _); [apply R_refl|].
  destruct (JSON_parse P _); [apply R_refl|apply R_removeItem].
Qed.

Lemma frame_isSessionValid data s : R s (snd (isSessionValid P data s)).
Proof.
  unfold isSessionValid. destruct (_ || _); [apply R_refl|].
  cbn [Date_now]. destruct (jsGe _ _ _); [apply R_clock|].
  destruct (_ || _); apply R_clock.
Qed.

Lemma frame_logout_false s : R s (logout P false s).
Proof.
  unfold logout. cbn [andb].
  eapply R_trans; [apply frame_clearSession|apply frame_showLoginForm].
Qed.

Lemma frame_updateActivityWith auth s :
  (forall s0, R s0 (stateOf (auth s0))) ->
  R s (stateOf (updateActivityWith P auth s)).
Proof.
  intros Hauth. unfold updateActivityWith.
  pose proof (Hauth s) as H0.
  destruct (auth s) as [b s1|e s1]; cbn [bind stateOf] in *; [|exact H0].
  destruct b; [|exact H0]. cbn [Date_now].
  match goal with |- context [getStoredSession P ?st] =>
    assert (H3 : R s st)
      by (eapply R_trans; [exact H0|]; eapply R_trans; [apply R_clock|apply R_activity]);
    pose proof (frame_getStoredSession st) as Hg;
    destruct (getStoredSession P st) as [sessionData s4]
  end.
  cbn [snd] in Hg. assert (H4 : R s s4) by (eapply R_trans; eassumption).
  destruct (truthy sessionData); [|exact H4].
  destruct (setProp sessionData _ _) as [e|data1]; [exact H4|].
  cbn [Date_now].
  destruct (setProp data1 _ _) as [e|data2].
  - cbn [stateOf]. eapply R_trans; [exact H4|apply R_clock].
  - match goal with |- context [Normal tt ?st] =>
      assert (H6 : R s st)
        by (eapply R_trans; [exact H4|]; eapply R_trans; [apply R_clock|apply R_expiry])
    end.
    destruct (JSON_stringify P _) as [text|]; [|exact H6].
    match goal with |- context [setItem P ?k ?v ?st] =>
      pose proof (R_setItem v st) as Hw; destruct (setItem P k v st) as [ok s7]
    end.
    cbn [snd stateOf] in *. eapply R_trans; eassumption.
Qed.

Lemma frame_showInactivityWarningWith auth s :
  (forall s0, R s0 (stateOf (auth s0))) ->
  R s (stateOf (showInactivityWarningWith P auth s)).
Proof.
  intros Hauth. unfold showInactivityWarningWith. cbn [confirm].
  destruct (confirmAnswer P _).
  - eapply R_trans; [apply R_confirm|]. by apply frame_updateActivityWith.
  - cbn [stateOf]. eapply R_trans; [apply R_confirm|apply frame_logout_false].
Qed.

Lemma frame_isAuthenticated depth : forall s, R s (stateOf (isAuthenticated P depth s)).
Proof.
  induction depth as [|depth IH]; intros s; [apply R_refl|].
  cbn [isAuthenticated]. destruct (_ || _); [apply R_refl|].
  cbn [Date_now]. destruct (jsGe _ _ _).
  - cbn [stateOf]. eapply R_trans; [apply R_clock|apply frame_clearSession].
  - destruct (jsElapsedGt _ _ _ _).
    + pose proof (frame_showInactivityWarningWith (isAuthenticated P depth)
        (snd (Date_now P (snd (Date_now P s)))) IH) as Hw.
      cbn [Date_now snd] in Hw.
      destruct (showInactivityWarningWith _ _ _); cbn [bind stateOf] in *;
        (eapply R_trans; [|exact Hw]);
        (eapply R_trans; [apply R_clock|apply R_clock]).
    + cbn [stateOf]. eapply R_trans; [apply R_clock|apply R_clock].
Qed.

Lemma frame_getCurrentUser depth s : R s (stateOf (getCurrentUser P depth s)).
Proof.
  unfold getCurrentUser. pose proof (frame_isAuthenticated depth s) as H.
  destruct (isAuthenticated P depth s) as [[|] s1|e s1]; exact H.
Qed.

Lemma frame_hasPermission depth role s :
  R s (stateOf (hasPermission P depth role s)).
Proof.
  unfold hasPermission. pose proof (frame_isAuthenticated depth s) as H.
  destruct (isAuthenticated P depth s) as [[|] s1|e s1]; exact H.
Qed.

Lemma frame_protectPage depth s : R s (stateOf (protectPage P depth s)).
Proof.
  unfold protectPage. destruct (negb _); [apply R_refl|].
  pose proof (frame_isAuthenticated depth s) as H.
  destruct (isAuthenticated P depth s) as [[|] s1|e s1]; cbn [bind stateOf] in *.
  - eapply R_trans; [exact H|apply frame_showAdminContent].
  - eapply R_trans; [exact H|apply frame_showLoginForm].
  - exact H.
Qed.

Lemma isSessionValid_user data s :
  fst (isSessionValid P data s) = true -> validUser (getProp data "user").
Proof.
  unfold isSessionValid. destruct (_ || _); [discriminate|].
  cbn [Date_now]. destruct (jsGe _ _ _); [discriminate|].
  destruct (truthy (getProp (getProp data "user") "username")) eqn:Hname;
    [|discriminate].
  destruct (truthy (getProp (getProp data "user") "id")) eqn:Hid;
    [|discriminate].
  intros _. split; assumption.
Qed.

Lemma frame_initializeSession depth s :
  R s (stateOf (initializeSession P depth s)).
Proof.
  unfold initializeSession.
  destruct (isInitialized (this s)); [apply frame_isAuthenticated|].
  pose proof (frame_getStoredSession s) as Hg.
  destruct (getStoredSession P s) as [savedSession s1]. cbn [snd] in Hg.
  assert (H2 : R s (snd (if truthy savedSession
                         then isSessionValid P savedSession s1
                         else (false, s1)))).
  { destruct (truthy savedSession); cbn [snd]; [|exact Hg].
    eapply R_trans; [exact Hg|apply frame_isSessionValid]. }
  assert (Hv : fst (if truthy savedSession
                    then isSessionValid P savedSession s1
                    else (false, s1)) = true ->
               validUser (getProp savedSession "user")).
  { destruct (truthy savedSession); [apply isSessionValid_user|discriminate]. }
  destruct (if truthy savedSession then _ else _) as [valid s2].
  cbn [fst snd] in H2, Hv.
  destruct valid.
  - assert (Hrest : forall st, R s st ->
      R s (stateOf (bind (updateActivity P depth st) (fun _ s7 =>
             Normal true (withThis (setIsInitialized true) s7))))).
    { intros st Hst.
      pose proof (frame_updateActivityWith (isAuthenticated P depth) st
                    (frame_isAuthenticated depth)) as Hu.
      fold (updateActivity P depth) in Hu.
      destruct (updateActivity P depth st) as [[] s7|e s7];
        cbn [bind stateOf] in *.
      - eapply R_trans; [exact Hst|].
        eapply R_trans; [exact Hu|apply R_initialized].
      - eapply R_trans; eassumption. }
    destruct (truthy (getProp savedSession "lastActivity")).
    + apply Hrest. eapply R_trans; [exact H2|].
      eapply R_trans; [apply (R_user (getProp savedSession "user")); auto|].
      eapply R_trans; [apply R_expiry|apply R_activity].
    + cbn [Date_now]. apply Hrest. eapply R_trans; [exact H2|].
      eapply R_trans; [apply (R_user (getProp savedSession "user")); auto|]. eapply R_trans; [apply R_expiry|].
      eapply R_trans; [apply R_clock|apply R_activity].
  - cbn [stateOf]. eapply R_trans; [exact H2|].
    eapply R_trans; [apply frame_clearSession|apply R_initialized].
Qed.

Lemma frame_refreshSession depth s :
  R s (stateOf (refreshSession P depth s)).
Proof.
  unfold refreshSession.
  eapply R_trans; [apply R_initialized|].
  apply frame_initializeSession.
Qed.

Lemma frame_logout redirect s :
  (redirect = false \/ forall h s0, R s0 (withBrowser (setNavigation h) s0)) ->
  R s (logout P redirect s).
Proof.
  intros [-> | Hnav]; [apply frame_logout_false|].
  unfold logout. destruct (_ && _).
  - eapply R_trans; [apply frame_clearSession|apply Hnav].
  - eapply R_trans; [apply frame_clearSession|apply frame_showLoginForm].
Qed.

Lemma frame_perform depth c s :
  (redirects c = false \/ forall h s0, R s0 (withBrowser (setNavigation h) s0)) ->
  R s (perform P depth c s).
Proof.
  intros H. destruct c; cbn [perform].
  - apply frame_createSession.
  - apply frame_isAuthenticated.
  - apply frame_updateActivityWith, frame_isAuthenticated.
  - apply frame_clearSession.
  - apply frame_logout. destruct H as [H|H]; [|auto].
    destruct redirect; [discriminate H|auto].
  - apply frame_getCurrentUser.
  - apply frame_protectPage.
  - apply frame_hasPermission.
  - apply frame_initializeSession.
  - apply frame_refreshSession.
Qed.

Lemma frame_performAll depth calls : forall s,
  (forallb (fun c => negb (redirects c)) calls = true
   \/ forall h s0, R s0 (withBrowser (setNavigation h) s0)) ->
  R s (performAll P depth calls s).
Proof.
  induction calls as [|c calls IH]; intros s H; [apply R_refl|].
  cbn [performAll fold_left]. eapply R_trans.
  - apply (frame_perform depth c s).
    destruct H as [H|H]; [left|right; exact H].
    cbn [forallb] in H. apply andb_true_iff in H as [H _].
    by apply negb_true_iff.
  - apply IH. destruct H as [H|H]; [left|right; exact H].
    cbn [forallb] in H. by apply andb_true_iff in H as [_ H].
Qed.

End Frame.


(** X10.  Whatever methods the page calls, in whatever order, and
    whether they return or throw, the manager reads and writes
    localStorage under its own key only: every other key keeps its
    value. *)
Theorem manager_touches_only_the_session_key P depth calls s key :
  key <> SESSION_KEY ->
  localStorage (browser (performAll P depth calls s)) !! key
  = localStorage (browser s) !! key.
Proof.
  intros Hkey.
  apply (frame_performAll P
    (fun s s' => localStorage (browser s') !! key
                 = localStorage (browser s) !! key));
    try (intros; reflexivity).
  - intros s1 s2 s3 H1 H2. congruence.
  - intros v s0. cbn. destruct (setItemOk P _); [|reflexivity].
    by rewrite lookup_insert_ne.
  - intros s0. cbn. by rewrite lookup_delete_ne.
  - right. intros; reflexivity.
Qed.

Lemma manager_touches_only_the_session_key_witness :
  "theme" <> SESSION_KEY
  /\ localStorage (browser Sample.activeState) !! "theme" = Some "dark"
  /\ localStorage
       (browser (performAll Sample.ticking 2
                   [CallUpdateActivity; CallLogout true;
                    CallCreateSession Sample.ford; CallRefreshSession]
                   Sample.activeState)) !! "theme"
     = localStorage (browser Sample.activeState) !! "theme".
Proof.
  assert (H : "theme" <> SESSION_KEY) by discriminate.
  split; [exact H|]. split; [reflexivity|].
  apply (manager_touches_only_the_session_key Sample.ticking 2
           [CallUpdateActivity; CallLogout true;
            CallCreateSession Sample.ford; CallRefreshSession]
           Sample.activeState "theme" H).
Defined.

(** X11.  Only [logout(true)] navigates: a sequence of calls without it
    leaves [window.location] alone, whatever the session state, dialogs
    and clock do.  In particular [isAuthenticated], [protectPage] and the
    initialisation never redirect or reload. *)
Theorem only_logout_with_redirect_navigates P depth calls s :
  forallb (fun c => negb (redirects c)) calls = true ->
  navigation (browser (performAll P depth calls s)) = navigation (browser s)
  /\ pathname (browser (performAll P depth calls s)) = pathname (browser s).
Proof.
  intros H.
  apply (frame_performAll P
    (fun s s' => navigation (browser s') = navigation (browser s)
                 /\ pathname (browser s') = pathname (browser s)));
    try (intros; split; reflexivity).
  - intros s1 s2 s3 [H1 H1'] [H2 H2']. split; congruence.
  - left. exact H.
Qed.

Lemma only_logout_with_redirect_navigates_witness :
  forallb (fun c => negb (redirects c))
          [CallIsAuthenticated; CallProtectPage; CallLogout false;
           CallRefreshSession] = true
  /\ navigation
       (browser (performAll Sample.okThenCancel 3
                   [CallIsAuthenticated; CallProtectPage; CallLogout false;
                    CallRefreshSession] Sample.idleState))
     = navigation (browser Sample.idleState)
  /\ pathname
       (browser (performAll Sample.okThenCancel 3
                   [CallIsAuthenticated; CallProtectPage; CallLogout false;
                    CallRefreshSession] Sample.idleState))
     = pathname (browser Sample.idleState).
Proof.
  split; [reflexivity|].
  apply (only_logout_with_redirect_navigates Sample.okThenCancel 3
           [CallIsAuthenticated; CallProtectPage; CallLogout false;
            CallRefreshSession] Sample.idleState eq_refl).
Defined.

Lemma userOk_performAll P depth calls s :
  userOk s -> userOk (performAll P depth calls s).
Proof.
  intros H.
  apply (frame_performAll P (fun s s' => userOk s -> userOk s'));
    try (intros; assumption); auto.
  - intros s0 _. left. reflexivity.
  - intros user s0 Hv _. right. exact Hv.
Qed.

Lemma userOk_construct P depth b : userOk (stateOf (construct P depth b)).
Proof.
  unfold construct. cbn [Date_now].
  apply (frame_initializeSession P (fun s s' => userOk s -> userOk s'));
    try (intros; assumption); auto.
  - intros s0 _. left. reflexivity.
  - intros user s0 Hv _. right. exact Hv.
  - left. reflexivity.
Qed.

(** X12.  From the construction of the manager on, whatever methods the
    page calls, [getCurrentUser()] returns null or a user object that has
    id and username: users enter the manager's memory only through the
    checks of [createSession] and [isSessionValid]. *)
Theorem getCurrentUser_is_null_or_valid P depth b calls user s' :
  getCurrentUser P depth
    (performAll P depth calls (stateOf (construct P depth b)))
  = Normal user s' ->
  user = JNull \/ validUser user.
Proof.
  set (s := performAll P depth calls (stateOf (construct P depth b))).
  assert (Hs : userOk s) by apply userOk_performAll, userOk_construct.
  unfold getCurrentUser.
  destruct (isAuthenticated P depth s) as [[|] s1|e s1] eqn:Hauth;
    cbn [bind]; [|intros [= <- _]; by left|discriminate].
  intros [= <- _]. rewrite (isAuthenticated_true_state _ _ _ _ Hauth).
  exact Hs.
Qed.

Lemma getCurrentUser_is_null_or_valid_witness :
  exists s',
    getCurrentUser Sample.atLogin 1
      (performAll Sample.atLogin 1
         [CallLogout false; CallCreateSession Sample.nameOnly;
          CallCreateSession Sample.ford]
         (stateOf (construct Sample.atLogin 1 (browser Sample.returningState))))
    = Normal Sample.ford s'
    /\ (Sample.ford = JNull \/ validUser Sample.ford).
Proof.
  eexists.
  assert (H : getCurrentUser Sample.atLogin 1
      (performAll Sample.atLogin 1
         [CallLogout false; CallCreateSession Sample.nameOnly;
          CallCreateSession Sample.ford]
         (stateOf (construct Sample.atLogin 1 (browser Sample.returningState))))
    = Normal Sample.ford _) by (vm_compute; reflexivity).
  split; [exact H|].
  apply (getCurrentUser_is_null_or_valid Sample.atLogin 1
           (browser Sample.returningState)
           [CallLogout false; CallCreateSession Sample.nameOnly;
            CallCreateSession Sample.ford] Sample.ford _ H).
Defined.

(** ** Which pages are protected *)

Lemma splitOn_cons sep s : exists seg segs, splitOn sep s = seg :: segs.
Proof.
  induction s as [|c r (seg & segs & IH)]; [eexists _, _; reflexivity|].
  cbn. rewrite IH. destruct (Ascii.eqb c sep); eexists _, _; reflexivity.
Qed.

Lemma pop_cons_cons a b l : pop (a :: b :: l) = pop (b :: l).
Proof. reflexivity. Qed.

Lemma splitOn_no_sep s :
  includes "/" s = false -> splitOn "/" s = [s].
Proof.
  induction s as [|c r IH]; [reflexivity|].
  rewrite includes_unfold. intros H. apply orb_false_iff in H as [Hp Hr].
  cbn. rewrite (IH Hr).
  destruct (Ascii.eqb c "/") eqn:E; [|reflexivity].
  apply Ascii.eqb_eq in E. subst c.
  assert (String.prefix "/" (String "/" r) = true)
    by (apply prefix_split; exists r; reflexivity).
  congruence.
Qed.

Lemma pop_splitOn_decompose s :
  includes "/" s = true ->
  exists dir, s = dir ++ "/" ++ pop (splitOn "/" s).
Proof.
  induction s as [|c r IH]; [discriminate|].
  intros Hs. destruct (includes "/" r) eqn:Hr.
  - destruct (IH eq_refl) as (dir & Hdir).
    exists (String c dir).
    assert (Hpop : pop (splitOn "/" (String c r)) = pop (splitOn "/" r)).
    { cbn [splitOn]. destruct (splitOn_cons "/" r) as (seg & segs & Hsplit).
      rewrite Hsplit. destruct (Ascii.eqb c "/"); [reflexivity|].
      destruct segs as [|seg' segs]; [|reflexivity].
      (* one segment only: r has no slash *)
      exfalso. clear -Hr Hsplit.
      assert (Hlen : forall s, includes "/" s = true -> (2 <= length (splitOn "/" s))%nat).
      { clear. induction s as [|c r IH]; [discriminate|].
        rewrite includes_unfold. intros H. cbn [splitOn].
        destruct (splitOn_cons "/" r) as (seg & segs & Hsplit). rewrite Hsplit in *.
        destruct (Ascii.eqb c "/") eqn:E; [cbn; lia|].
        apply orb_true_iff in H as [H|H].
        - apply prefix_split in H as (rest & H). injection H as -> _.
          cbn in E. discriminate.
        - specialize (IH H). cbn in *. lia. }
      specialize (Hlen r Hr). rewrite Hsplit in Hlen. cbn in Hlen. lia. }
    rewrite Hpop.
    change (String c r = String c (dir ++ "/" ++ pop (splitOn "/" r))).
    by f_equal.
  - rewrite includes_unfold, Hr, orb_false_r in Hs.
    apply prefix_split in Hs as (rest & Hs). injection Hs as -> _.
    exists "". cbn [splitOn]. rewrite (splitOn_no_sep r Hr). reflexivity.
Qed.

Lemma adminPages_start_with_admin page :
  In page adminPages -> exists rest, page = "admin" ++ rest.
Proof.
  unfold adminPages. cbn [In].
  intros [<-|[<-|[<-|[<-|[<-|[<-|[<-|[]]]]]]]]; eexists; reflexivity.
Qed.

(** X13.  On a pathname with a slash in it (every pathname a browser
    reports begins with one), [requiresAuthentication()] is true exactly
    when the pathname contains "/admin": every file name of the list of
    admin pages begins with admin, so the list adds no page. *)
Theorem allowlist_is_subsumed s :
  includes "/" (pathname (browser s)) = true ->
  requiresAuthentication s = includes "/admin" (pathname (browser s)).
Proof.
  intros Hslash. unfold requiresAuthentication.
  destruct (existsb _ adminPages) eqn:E; [|reflexivity].
  apply existsb_exists in E as (page & Hin & Heq).
  apply String.eqb_eq in Heq. subst page.
  destruct (adminPages_start_with_admin _ Hin) as (rest & Hpage).
  destruct (pop_splitOn_decompose _ Hslash) as (dir & Hdir).
  symmetry. cbn [orb]. apply includes_substring.
  exists dir, rest. rewrite Hdir at 1. rewrite Hpage. reflexivity.
Qed.

Lemma allowlist_is_subsumed_witness :
  includes "/" (pathname (browser Sample.expiredState)) = true
  /\ requiresAuthentication Sample.expiredState = true
  /\ requiresAuthentication Sample.expiredState
     = includes "/admin" (pathname (browser Sample.expiredState)).
Proof.
  split; [reflexivity|]. split; [reflexivity|].
  apply (allowlist_is_subsumed Sample.expiredState eq_refl).
Defined.

(** ** The user display *)

Lemma hasClass_classAdd_other c c' e :
  c <> c' -> hasClass c (classAdd c' e) = hasClass c e.
Proof.
  intros Hne. unfold hasClass, classAdd. cbn.
  destruct (existsb (String.eqb c') (classList e)); [reflexivity|].
  rewrite existsb_app. cbn.
  replace (String.eqb c c') with false by (symmetry; by apply String.eqb_neq).
  by rewrite !orb_false_r.
Qed.

Lemma hasClass_classRemove_other c c' e :
  c <> c' -> hasClass c (classRemove c' e) = hasClass c e.
Proof.
  intros Hne. unfold hasClass, classRemove. cbn.
  induction (classList e) as [|x l IH]; [reflexivity|].
  cbn. destruct (String.eqb c' x) eqn:E; cbn.
  - apply String.eqb_eq in E. subst x.
    replace (String.eqb c c') with false by (symmetry; by apply String.eqb_neq).
    exact IH.
  - by rewrite IH.
Qed.

Lemma updateUserDisplay_effect s i e :
  truthy (currentUser (this s)) = true ->
  document (browser s) !! i = Some e ->
  document (browser (updateUserDisplay s)) !! i
  = Some (if bool_decide (getElementById "currentUser" (document (browser s)) = Some i)
             || hasClass "admin-user-name" e
          then setTextContent (displayName (currentUser (this s))) e
          else e).
Proof.
  intros Hu He. unfold updateUserDisplay. rewrite Hu.
  cbn [document browser withBrowser setDocument].
  fold (displayName (currentUser (this s))).
  change (map ?f ?l) with (f <$> l). rewrite list_lookup_fmap.
  set (name := displayName (currentUser (this s))).
  assert (Hsame : hasClass "admin-user-name" (setTextContent name e)
                  = hasClass "admin-user-name" e) by reflexivity.
  destruct (getElementById "currentUser" _) as [n|].
  - destruct (decide (n = i)) as [->|Hne].
    + rewrite list_lookup_alter_eq, He.
      rewrite bool_decide_true by reflexivity.
      cbn [fmap option_fmap option_map orb]. rewrite Hsame.
      destruct (hasClass "admin-user-name" e); reflexivity.
    + rewrite list_lookup_alter_ne, He by exact Hne.
      rewrite bool_decide_false by congruence. reflexivity.
  - rewrite He. rewrite bool_decide_false by discriminate. reflexivity.
Qed.

(** X14.  On an admin page that has the login screen and the dashboard,
    [protectPage()] for an authenticated user writes the user's name, the
    full name if there is one and the username otherwise, as the text of
    the element with id currentUser and of every element of class
    admin-user-name. *)
Theorem protectPage_displays_the_user P depth s s1 loginScreen adminDashboard :
  requiresAuthentication s = true ->
  isAuthenticated P depth s = Normal true s1 ->
  getElementById "loginScreen" (document (browser s)) = Some loginScreen ->
  getElementById "adminDashboard" (document (browser s)) = Some adminDashboard ->
  exists s2,
    protectPage P depth s = Normal true s2
    /\ forall i e,
         document (browser s) !! i = Some e ->
         getElementById "currentUser" (document (browser s)) = Some i
         \/ hasClass "admin-user-name" e = true ->
         contentAt (document (browser s2)) i
         = Some (Text (displayName (currentUser (this s)))).
Proof.
  intros Hreq Hauth Hl Ha. unfold protectPage. rewrite Hreq, Hauth. cbn [negb bind].
  pose proof (isAuthenticated_true_user _ _ _ _ Hauth) as Hu.
  pose proof (isAuthenticated_true_state _ _ _ _ Hauth) as ->.
  eexists. split; [reflexivity|]. intros i e He Hwho.
  unfold showAdminContent. cbn [Date_now snd withBrowser browser document].
  rewrite Hl, Ha.
  set (hide := fun e : Element => setDisplay "none" (classAdd "hidden" e)).
  set (show := fun e : Element => setDisplay "block" (classRemove "hidden" e)).
  set (d := document (browser s)) in *.
  set (d2 := alter show adminDashboard (alter hide loginScreen d)).
  assert (Hids : forall k, getElementById k d2 = getElementById k d).
  { intros k. unfold d2. rewrite !getElementById_alter by reflexivity. reflexivity. }
  assert (He2 : exists e2, d2 !! i = Some e2
            /\ hasClass "admin-user-name" e2 = hasClass "admin-user-name" e).
  { unfold d2. destruct (decide (adminDashboard = i)) as [->|Hna].
    - rewrite list_lookup_alter_eq.
      destruct (decide (loginScreen = i)) as [->|Hnl].
      + rewrite list_lookup_alter_eq, He. eexists. split; [reflexivity|].
        unfold show, hide.
        change (hasClass "admin-user-name" (setDisplay ?v ?x))
          with (hasClass "admin-user-name" x).
        rewrite hasClass_classRemove_other by discriminate.
        change (hasClass "admin-user-name" (setDisplay ?v ?x))
          with (hasClass "admin-user-name" x).
        by rewrite hasClass_classAdd_other by discriminate.
      + rewrite list_lookup_alter_ne, He by exact Hnl. eexists. split; [reflexivity|].
        unfold show.
        change (hasClass "admin-user-name" (setDisplay ?v ?x))
          with (hasClass "admin-user-name" x).
        by rewrite hasClass_classRemove_other by discriminate.
    - rewrite list_lookup_alter_ne by exact Hna.
      destruct (decide (loginScreen = i)) as [->|Hnl].
      + rewrite list_lookup_alter_eq, He. eexists. split; [reflexivity|].
        unfold hide.
        change (hasClass "admin-user-name" (setDisplay ?v ?x))
          with (hasClass "admin-user-name" x).
        by rewrite hasClass_classAdd_other by discriminate.
      + rewrite list_lookup_alter_ne, He by exact Hnl. eauto. }
  destruct He2 as (e2 & He2 & Hclass).
  unfold contentAt.
  match goal with |- context [updateUserDisplay ?st] =>
    rewrite (updateUserDisplay_effect st i e2 Hu He2) end.
  cbn [document browser withBrowser setDocument this]. fold d2.
  rewrite Hids, Hclass.
  destruct Hwho as [Hc|Hc].
  - rewrite bool_decide_true by exact Hc. reflexivity.
  - rewrite Hc, orb_true_r. reflexivity.
Qed.

Lemma protectPage_displays_the_user_witness :
  requiresAuthentication Sample.fordState = true
  /\ displayName (currentUser (this Sample.fordState)) = "Henry Ford"
  /\ exists s1 s2,
       isAuthenticated Sample.alwaysOk 1 Sample.fordState = Normal true s1
       /\ protectPage Sample.alwaysOk 1 Sample.fordState = Normal true s2
       /\ contentAt (document (browser s2)) 2 = Some (Text "Henry Ford")
       /\ contentAt (document (browser s2)) 3 = Some (Text "Henry Ford").
Proof.
  split; [reflexivity|]. split; [reflexivity|].
  assert (H : isAuthenticated Sample.alwaysOk 1 Sample.fordState
              = Normal true (snd (Date_now Sample.alwaysOk
                               (snd (Date_now Sample.alwaysOk Sample.fordState)))))
    by (vm_compute; reflexivity).
  destruct (protectPage_displays_the_user Sample.alwaysOk 1 Sample.fordState _
              0%nat 1%nat eq_refl H eq_refl eq_refl) as (s2 & Hrun & Hshow).
  eexists _, s2. split; [exact H|]. split; [exact Hrun|]. split.
  - apply (Hshow 2%nat (mkElement "currentUser" [] "" (Text "")) eq_refl).
    left. reflexivity.
  - apply (Hshow 3%nat (mkElement "" ["admin-user-name"] "" (Text "")) eq_refl).
    right. reflexivity.
Defined.

(** ** Activity tracking *)

Section T.
Variables (P : Platform) (t0 : Z).
Hypothesis Ht0 : 0 <= t0.
Hypothesis Hclock : clockWithin P t0.

Lemma liveFrom_isAuthenticated depth s :
  liveFrom t0 s ->
  isAuthenticated P (S depth) s
  = Normal true (snd (Date_now P (snd (Date_now P s)))).
Proof.
  intros (Hu & e & a & He & Ha & Hexp & Hact).
  destruct (Hclock (clockReads (browser s))) as [? ?].
  destruct (Hclock (S (clockReads (browser s)))) as [? ?].
  apply (isAuthenticated_live P depth s e a); auto;
    unfold ACTIVITY_TIMEOUT in *; lia.
Qed.

Lemma liveFrom_clock s : liveFrom t0 s -> liveFrom t0 (snd (Date_now P s)).
Proof. intros H. exact H. Qed.

Lemma liveFrom_updateActivity depth s :
  liveFrom t0 s ->
  let s' := stateOf (updateActivity P (S depth) s) in
  liveFrom t0 s'
  /\ (writes (browser s') <= S (writes (browser s)))%nat
  /\ forall e, updateActivity P (S depth) s = Abrupt e s' ->
               writes (browser s') = writes (browser s).
Proof.
  intros Hlive. pose proof Hlive as (Hu & e & a & He & Ha & Hexp & Hact).
  cbv zeta. unfold updateActivity, updateActivityWith.
  rewrite (liveFrom_isAuthenticated depth s Hlive). cbn [bind Date_now].
  destruct (Hclock (S (S (clockReads (browser s))))) as [Hn1 Hn2].
  destruct (Hclock (S (S (S (clockReads (browser s)))))) as [Hm1 Hm2].
  match goal with |- context [getStoredSession P ?st] =>
    assert (Hlive3 : liveFrom t0 st)
      by (split; [exact Hu|]; exists e, (dateNow P (S (S (clockReads (browser s)))));
          cbn; auto);
    assert (Hw3 : writes (browser st) = writes (browser s)) by reflexivity;
    assert (Hc3 : clockReads (browser st) = S (S (S (clockReads (browser s))))) by reflexivity;
    assert (Hg : this (snd (getStoredSession P st)) = this st
                 /\ writes (browser (snd (getStoredSession P st))) = writes (browser st)
                 /\ clockReads (browser (snd (getStoredSession P st))) = clockReads (browser st))
      by (unfold getStoredSession; destruct (getItem _ _); [|auto];
          destruct (String.eqb _ _); [auto|]; destruct (JSON_parse P _); auto);
    destruct (getStoredSession P st) as [sessionData s4]
  end.
  cbn [snd] in Hg. destruct Hg as (Hthis & Hw4 & Hc4).
  assert (Hlive4 : liveFrom t0 s4).
  { unfold liveFrom. rewrite Hthis. exact Hlive3. }
  destruct (truthy sessionData).
  - destruct (setProp sessionData _ _) as [err|data1].
    + cbn [stateOf]. split; [exact Hlive4|]. split; [lia|]. intros _ _. lia.
    + cbn [Date_now]. destruct (setProp data1 _ _) as [err|data2] eqn:Hset.
      * cbn [stateOf]. split; [exact Hlive4|]. split; [cbn; lia|]. intros _ _. cbn. lia.
      * assert (Hexp2 : getProp data2 "expiry"
                        = JNum (dateNow P (clockReads (browser s4)) + SESSION_TIMEOUT)).
        { destruct data1; try discriminate Hset. cbn in Hset. injection Hset as <-.
          unfold getProp. by rewrite lookup_insert_eq. }
        rewrite Hexp2.
        destruct (JSON_stringify P data2) as [text|];
          unfold setItem; cbn [stateOf withBrowser withThis this browser writes];
          (split; [|split; [lia|discriminate]]);
        destruct Hlive4 as (Hu4 & e4 & a4 & He4 & Ha4 & Hexp4 & Hact4).
        all: split; [exact Hu4|]; eexists _, a4; cbn;
          (split; [reflexivity|]); (split; [exact Ha4|]); (split; [|exact Hact4]);
          rewrite Hc4, Hc3; unfold SESSION_TIMEOUT, ACTIVITY_TIMEOUT in *; lia.
  - cbn [stateOf]. split; [exact Hlive4|]. split; [lia|]. discriminate.
Qed.

Lemma handleActivity_live depth throttle s :
  liveFrom t0 s ->
  let outcome := handleActivity P (S depth) throttle s in
  let throttle' := match outcome with
                   | Normal t _ => t
                   | Abrupt _ _ => throttle
                   end in
  liveFrom t0 (stateOf outcome)
  /\ (writes (browser (stateOf outcome)) + budget throttle'
      <= writes (browser s) + budget throttle)%nat.
Proof.
  intros Hlive. cbv zeta. unfold handleActivity.
  rewrite (liveFrom_isAuthenticated depth s Hlive). cbn [bind andb].
  destruct throttle; cbn [negb].
  - cbn [stateOf]. split; [exact Hlive|]. cbn. lia.
  - pose proof (liveFrom_updateActivity depth
                  (snd (Date_now P (snd (Date_now P s)))) Hlive) as H.
    cbv zeta in H. destruct H as (Hl & Hw & Ha).
    destruct (updateActivity P (S depth) _) as [[] s2|e s2]; cbn [bind stateOf] in *.
    + split; [exact Hl|]. cbn in *. lia.
    + split; [exact Hl|]. specialize (Ha e eq_refl). cbn in *. lia.
Qed.

Lemma dispatch_live depth event throttle s :
  liveFrom t0 s ->
  let page := dispatch P (S depth) event (throttle, s) in
  liveFrom t0 (snd page)
  /\ (writes (browser (snd page)) + budget (fst page)
      <= writes (browser s) + budget throttle
         + (if isTimeout event then 1 else 0))%nat.
Proof.
  intros Hlive. cbv zeta.
  pose proof (handleActivity_live depth throttle s Hlive) as H. cbv zeta in H.
  destruct event as [|hidden|]; cbn [dispatch isTimeout].
  - destruct (handleActivity P (S depth) throttle s); cbn [stateOf fst snd] in *;
      destruct H; split; auto; lia.
  - destruct hidden; cbn [negb].
    + cbn [fst snd]. split; [exact Hlive|lia].
    + destruct (handleActivity P (S depth) throttle s); cbn [stateOf fst snd] in *;
        destruct H; split; auto; lia.
  - cbn [fst snd]. split; [exact Hlive|]. cbn. lia.
Qed.

Lemma dispatchAll_live depth events : forall throttle s,
  liveFrom t0 s ->
  let page := dispatchAll P (S depth) events (throttle, s) in
  liveFrom t0 (snd page)
  /\ (writes (browser (snd page)) + budget (fst page)
      <= writes (browser s) + budget throttle
         + length (List.filter isTimeout events))%nat.
Proof.
  induction events as [|event events IH]; intros throttle s Hlive; cbv zeta.
  - cbn. split; [exact Hlive|lia].
  - cbn [dispatchAll fold_left].
    pose proof (dispatch_live depth event throttle s Hlive) as H. cbv zeta in H.
    destruct (dispatch P (S depth) event (throttle, s)) as [throttle1 s1].
    cbn [fst snd] in H. destruct H as [Hl1 Hw1].
    pose proof (IH throttle1 s1 Hl1) as H2. cbv zeta in H2.
    unfold dispatchAll in H2. destruct H2 as [Hl2 Hw2].
    split; [exact Hl2|]. cbn [List.filter].
    destruct (isTimeout event); cbn [length] in *; lia.
Qed.
End T.

(** X15.  While the session stays authenticated (a session live for the
    half hour from [t0], the clock within that half hour), any sequence of
    activity events, visibility changes and timer expiries causes at most
    one call of [localStorage.setItem] per expiry of the throttle timer,
    plus one if the flag was clear at the start. *)
Theorem activity_writes_are_throttled P depth t0 events throttle s :
  0 <= t0 -> clockWithin P t0 -> liveFrom t0 s ->
  (writes (browser (snd (dispatchAll P (S depth) events (throttle, s))))
   <= writes (browser s) + (if throttle then 0 else 1)
      + length (List.filter isTimeout events))%nat.
Proof.
  intros Ht0 Hclock Hlive.
  pose proof (dispatchAll_live P t0 Ht0 Hclock depth events throttle s Hlive) as H.
  cbv zeta in H. destruct H as [_ H]. unfold budget in H.
  destruct throttle; destruct (fst _); lia.
Qed.

Lemma activity_writes_are_throttled_witness :
  0 <= 1700003600000
  /\ clockWithin Sample.alwaysOk 1700003600000
  /\ liveFrom 1700003600000 Sample.activeState
  /\ (writes (browser (snd (dispatchAll Sample.alwaysOk 1
                              [UserActivity; UserActivity;
                               VisibilityChange false; ThrottleTimeout;
                               UserActivity; UserActivity]
                              (false, Sample.activeState))))
      <= writes (browser Sample.activeState) + 1 + 1)%nat.
Proof.
  assert (H0 : 0 <= 1700003600000) by lia.
  assert (Hc : clockWithin Sample.alwaysOk 1700003600000)
    by (intros i; unfold ACTIVITY_TIMEOUT; simpl; lia).
  assert (Hl : liveFrom 1700003600000 Sample.activeState).
  { split; [reflexivity|]. exists 1700086400000, 1700003600000.
    unfold ACTIVITY_TIMEOUT. simpl. repeat split; lia. }
  split; [exact H0|]. split; [exact Hc|]. split; [exact Hl|].
  apply (activity_writes_are_throttled Sample.alwaysOk 0 1700003600000
           [UserActivity; UserActivity; VisibilityChange false;
            ThrottleTimeout; UserActivity; UserActivity]
           false Sample.activeState H0 Hc Hl).
Defined.

(** ** The inactivity dialog *)

(** X16.  When the session has been idle for more than half an hour but
    has not expired and the user answers Cancel to the inactivity dialog,
    [isAuthenticated()] returns false and the user is logged out: the
    stored record is removed and the user in memory is reset. *)
Theorem cancelling_the_dialog_logs_out P depth s activity :
  truthy (currentUser (this s)) = true ->
  truthy (sessionExpiry (this s)) = true ->
  jsGe P (dateNow P (clockReads (browser s))) (sessionExpiry (this s)) = false ->
  toNumber P (lastActivity (this s)) = Some activity ->
  ACTIVITY_TIMEOUT < dateNow P (S (clockReads (browser s))) - activity ->
  confirmAnswer P (prompts (browser s)) = false ->
  exists s',
    isAuthenticated P (S depth) s = Normal false s'
    /\ getItem SESSION_KEY s' = None
    /\ currentUser (this s') = JNull.
Proof. exact (idle_session_cancelled P depth s activity). Qed.

Lemma cancelling_the_dialog_logs_out_witness :
  exists s',
    isAuthenticated Sample.tampered 1 Sample.idleState = Normal false s'
    /\ getItem SESSION_KEY s' = None
    /\ currentUser (this s') = JNull.
Proof.
  assert (Hidle : ACTIVITY_TIMEOUT
                  < dateNow Sample.tampered
                      (S (clockReads (browser Sample.idleState)))
                    - 1700000000000)
    by (unfold ACTIVITY_TIMEOUT; simpl; lia).
  apply (cancelling_the_dialog_logs_out Sample.tampered 0 Sample.idleState
           1700000000000 eq_refl eq_refl eq_refl eq_refl Hidle eq_refl).
Defined.

(** X17.  Once a session has been idle for more than half an hour, and
    as long as the clock does not run backwards, a call of
    [isAuthenticated()] that returns has returned false and has cleared
    the session: answering OK to the dialog never extends the session, it
    brings up the dialog again. *)
Theorem confirming_the_dialog_never_extends P depth s activity authenticated
  s' :
  truthy (currentUser (this s)) = true ->
  truthy (sessionExpiry (this s)) = true ->
  toNumber P (lastActivity (this s)) = Some activity ->
  (forall i, (clockReads (browser s) < i)%nat ->
             ACTIVITY_TIMEOUT < dateNow P i - activity) ->
  isAuthenticated P depth s = Normal authenticated s' ->
  authenticated = false
  /\ getItem SESSION_KEY s' = None
  /\ currentUser (this s') = JNull.
Proof.
  exact (idle_session_is_cleared_on_return P depth s activity authenticated s').
Qed.

Lemma confirming_the_dialog_never_extends_witness :
  exists s',
    isAuthenticated Sample.okThenCancel 3 Sample.idleState = Normal false s'
    /\ prompts (browser s') = 2%nat
    /\ (false = false /\ getItem SESSION_KEY s' = None
        /\ currentUser (this s') = JNull).
Proof.
  eexists.
  assert (H : isAuthenticated Sample.okThenCancel 3 Sample.idleState
              = Normal false _) by (vm_compute; reflexivity).
  assert (Hidle : forall i,
    (clockReads (browser Sample.idleState) < i)%nat ->
    ACTIVITY_TIMEOUT < dateNow Sample.okThenCancel i - 1700000000000)
    by (intros i Hi; unfold ACTIVITY_TIMEOUT; simpl; lia).
  split; [exact H|]. split; [reflexivity|].
  apply (confirming_the_dialog_never_extends Sample.okThenCancel 3
           Sample.idleState 1700000000000 false _ eq_refl eq_refl eq_refl
           Hidle H).
Defined.

(** X18.  [isAuthenticated()] ends in a stack overflow only if the
    dialogs keep being confirmed: when the answer to the dialog [k] dialogs
    from now is Cancel, room for [k + 1] nested calls is enough and no
    RangeError is thrown. *)
Theorem a_cancel_ends_the_dialogs P k depth s s' :
  confirmAnswer P (prompts (browser s) + k) = false ->
  (k < depth)%nat ->
  isAuthenticated P depth s <> Abrupt RangeError s'.
Proof. exact (isAuthenticated_stack_suffices P k depth s s'). Qed.

Lemma a_cancel_ends_the_dialogs_witness :
  confirmAnswer Sample.okThenCancel
    (prompts (browser Sample.idleState) + 1) = false
  /\ (1 < 2)%nat
  /\ isAuthenticated Sample.okThenCancel 2 Sample.idleState
     <> Abrupt RangeError Sample.idleState.
Proof.
  assert (Hd : (1 < 2)%nat) by lia.
  split; [reflexivity|]. split; [exact Hd|].
  apply (a_cancel_ends_the_dialogs Sample.okThenCancel 1 2
           Sample.idleState Sample.idleState eq_refl Hd).
Defined.

(** * Further properties of the component loader *)

(** ** One component *)

Section LoadingOne.
Variable P : Platform.

Lemma loadHTMLComponent_shape path id name d n :
  getElementById id d = Some n ->
  loadHTMLComponent P path id name d
  = match failureMessage (fetch P path), fetch P path with
    | Some message, _ =>
        (false, alter (setInnerHTML (errorMarkup name message)) n
                      (alter (setInnerHTML (loadingMarkup name)) n d))
    | None, Response _ _ (BodyText html) =>
        (true, alter (setInnerHTML html) n
                     (alter (setInnerHTML (loadingMarkup name)) n d))
    | None, _ => (false, d)
    end.
Proof.
  intros Hn. unfold loadHTMLComponent, start. rewrite Hn. cbn [finish].
  unfold afterFetch, failureMessage, showLoadError.
  rewrite getElementById_alter by reflexivity. rewrite Hn.
  destruct (fetch P path) as [message|status statusText [html|message]];
    [reflexivity|destruct (responseOk status); cbn..].
  - reflexivity.
  - reflexivity.
  - unfold showLoadError. rewrite getElementById_alter by reflexivity. rewrite Hn. reflexivity.
  - reflexivity.
Qed.

(** X19.  When the page has no element with the container id,
    [loadHTMLComponent] returns false and leaves the document exactly as
    it was, whatever the request would have given. *)
Theorem loadHTMLComponent_without_container path id name d :
  getElementById id d = None ->
  loadHTMLComponent P path id name d = (false, d).
Proof. intros H. unfold loadHTMLComponent, start. rewrite H. reflexivity. Qed.

(** X20.  [loadHTMLComponent] changes nothing but the content of its
    container: every element keeps its id, classes and display style, and
    every element other than the container keeps its content too. *)
Theorem loadHTMLComponent_changes_only_the_container path id name d :
  let d' := snd (loadHTMLComponent P path id name d) in
  visual <$> d' = visual <$> d
  /\ forall m, getElementById id d <> Some m -> d' !! m = d !! m.
Proof.
  cbv zeta. destruct (getElementById id d) as [n|] eqn:Hn.
  - rewrite (loadHTMLComponent_shape _ _ _ _ _ Hn).
    destruct (failureMessage _) as [message|];
      [|destruct (fetch P path) as [?|? ? [html|?]]]; cbn [snd];
      (split; [rewrite ?fmap_alter_same by reflexivity; reflexivity|]);
      intros m Hm; try reflexivity;
      (assert (n <> m) by congruence); by rewrite !list_lookup_alter_ne.
  - rewrite loadHTMLComponent_without_container by exact Hn. cbn. auto.
Qed.

(** X21.  When the container exists, the request is answered with an OK
    status and the body can be read, [loadHTMLComponent] returns true and
    the container holds exactly the body text. *)
Theorem loadHTMLComponent_injects_verbatim path id name d n status statusText html :
  getElementById id d = Some n ->
  fetch P path = Response status statusText (BodyText html) ->
  responseOk status = true ->
  exists d', loadHTMLComponent P path id name d = (true, d')
             /\ contentAt d' n = Some (Html html).
Proof.
  intros Hn Hf Hok. rewrite (loadHTMLComponent_shape _ _ _ _ _ Hn).
  unfold failureMessage. rewrite Hf, Hok. eexists. split; [reflexivity|].
  destruct (getElementById_lookup _ _ _ Hn) as (e & He & _).
  apply contentAt_setInnerHTML. rewrite list_lookup_alter_eq, He. eauto.
Qed.

(** X22.  When the container exists and the request fails (rejected,
    status outside 200..299, or unreadable body), [loadHTMLComponent]
    returns false and the container holds the error markup, which names
    the component ("Unable to load" and the name) and quotes the error
    message ("Error:" and the message, for a bad status the text HTTP,
    the status and the status text). *)
Theorem loadHTMLComponent_reports_failure path id name d n message :
  getElementById id d = Some n ->
  failureMessage (fetch P path) = Some message ->
  exists d' markup,
    loadHTMLComponent P path id name d = (false, d')
    /\ contentAt d' n = Some (Html markup)
    /\ includes ("Unable to load " ++ name) markup = true
    /\ includes ("Error: " ++ message) markup = true.
Proof.
  intros Hn Hf. rewrite (loadHTMLComponent_shape _ _ _ _ _ Hn), Hf.
  eexists _, _. split; [reflexivity|]. split; [|split].
  - destruct (getElementById_lookup _ _ _ Hn) as (e & He & _).
    apply contentAt_setInnerHTML. rewrite list_lookup_alter_eq, He. eauto.
  - apply errorMarkup_includes.
  - unfold errorMarkup. do 14 apply includes_app_r.
    match goal with
    | |- includes _ (_ ++ message ++ ?rest) = true =>
        change (includes ("Error: " ++ message)
                         ("<small>" ++ ("Error: " ++ message) ++ rest) = true)
    end.
    apply includes_app_r, includes_here.
Qed.
End LoadingOne.

Lemma loadHTMLComponent_without_container_witness :
  getElementById headerContainerId Sample.dashboard = None
  /\ loadHTMLComponent Sample.ticking headerPath headerContainerId "header"
       Sample.dashboard = (false, Sample.dashboard).
Proof.
  split; [reflexivity|].
  apply (loadHTMLComponent_without_container Sample.ticking headerPath
           headerContainerId "header" Sample.dashboard eq_refl).
Defined.

Lemma loadHTMLComponent_changes_only_the_container_witness :
  getElementById footerContainerId Sample.sitePage <> Some 1%nat
  /\ snd (loadHTMLComponent Sample.ticking footerPath footerContainerId
            "footer" Sample.sitePage) !! 1%nat
     = Sample.sitePage !! 1%nat.
Proof.
  assert (H : getElementById footerContainerId Sample.sitePage <> Some 1%nat)
    by discriminate.
  split; [exact H|].
  apply (proj2 (loadHTMLComponent_changes_only_the_container Sample.ticking
                  footerPath footerContainerId "footer" Sample.sitePage)
               1%nat H).
Defined.

Lemma loadHTMLComponent_injects_verbatim_witness :
  getElementById headerContainerId Sample.sitePage = Some 0%nat
  /\ fetch Sample.ticking headerPath
     = Response 200 "OK" (BodyText "<div>H</div>")
  /\ responseOk 200 = true
  /\ exists d',
       loadHTMLComponent Sample.ticking headerPath headerContainerId "header"
         Sample.sitePage = (true, d')
       /\ contentAt d' 0 = Some (Html "<div>H</div>").
Proof.
  split; [reflexivity|]. split; [reflexivity|]. split; [reflexivity|].
  apply (loadHTMLComponent_injects_verbatim Sample.ticking headerPath
           headerContainerId "header" Sample.sitePage 0 200 "OK"
           "<div>H</div>" eq_refl eq_refl eq_refl).
Defined.

Lemma loadHTMLComponent_reports_failure_witness :
  getElementById footerContainerId Sample.sitePage = Some 2%nat
  /\ failureMessage (fetch Sample.ticking footerPath)
     = Some "HTTP 404: Not Found"
  /\ exists d' markup,
       loadHTMLComponent Sample.ticking footerPath footerContainerId "footer"
         Sample.sitePage = (false, d')
       /\ contentAt d' 2 = Some (Html markup)
       /\ includes ("Unable to load " ++ "footer") markup = true
       /\ includes ("Error: " ++ "HTTP 404: Not Found") markup = true.
Proof.
  split; [reflexivity|]. split; [reflexivity|].
  apply (loadHTMLComponent_reports_failure Sample.ticking footerPath
           footerContainerId "footer" Sample.sitePage 2 "HTTP 404: Not Found"
           eq_refl eq_refl).
Defined.

(** ** Both components *)

Section LoadingBoth.
Variable P : Platform.

(** A continuation changes the document, not what the call is going to
    return. *)
Lemma resume_resultOf t d : resultOf P (fst (resume P t d)) = resultOf P t.
Proof.
  destruct t as [result|path cid name c|path cid name c body];
    cbn [resume resultOf].
  - reflexivity.
  - unfold afterFetch, fetchSucceeded.
    destruct (fetch P path) as [message|status statusText body];
      [reflexivity|].
    destruct (responseOk status), body; reflexivity.
  - by destruct body.
Qed.

Lemma finish_resultOf t d : fst (finish P t d) = resultOf P t.
Proof.
  destruct t as [result|path cid name c|path cid name c body];
    cbn [finish resultOf].
  - reflexivity.
  - unfold afterFetch, fetchSucceeded.
    destruct (fetch P path) as [message|status statusText body];
      [reflexivity|].
    destruct (responseOk status), body; reflexivity.
  - by destruct body.
Qed.

Lemma interleave_resultOf schedule : forall header footer d,
  let '(header', footer', _) := interleave P schedule header footer d in
  resultOf P header' = resultOf P header
  /\ resultOf P footer' = resultOf P footer.
Proof.
  induction schedule as [|[|] rest IH]; intros header footer d;
    cbn [interleave].
  - auto.
  - pose proof (resume_resultOf header d) as Hr.
    destruct (resume P header d) as [header' d']. cbn [fst] in Hr.
    specialize (IH header' footer d').
    destruct (interleave P rest header' footer d') as [[h' f'] d3].
    destruct IH as [IH1 IH2]. split; congruence.
  - pose proof (resume_resultOf footer d) as Hr.
    destruct (resume P footer d) as [footer' d']. cbn [fst] in Hr.
    specialize (IH header footer' d').
    destruct (interleave P rest header footer' d') as [[h' f'] d3].
    destruct IH as [IH1 IH2]. split; congruence.
Qed.

(** A call that has just started is going to return true exactly when it
    found its container and its request succeeds. *)
Lemma start_resultOf path key name d :
  resultOf P (fst (start path key name d)) = true
  <-> is_Some (getElementById key d) /\ fetchSucceeded (fetch P path) = true.
Proof.
  unfold start. destruct (getElementById key d) as [n|]; cbn [fst resultOf].
  - split; [eauto|tauto].
  - split; [discriminate|]. intros [[? Hn] _]. discriminate Hn.
Qed.

Lemma start_ids path key name d :
  elemId <$> snd (start path key name d) = elemId <$> d.
Proof.
  unfold start. destruct (getElementById key d); [|reflexivity].
  by apply fmap_alter_same.
Qed.

(** X23.  Whatever the order in which the two requests settle,
    [loadAllComponents] gets true from the header call exactly when the
    page has the header container and the request for the header
    succeeded (OK status, body read), and true from the footer call
    exactly when the page has the footer container and the request for
    the footer succeeded: neither result depends on the order, nor on
    what became of the other call. *)
Theorem loadAllComponents_results_ignore_the_order schedule d :
  let '(headerLoaded, footerLoaded, _) := loadAllComponents P schedule d in
  (headerLoaded = true
   <-> is_Some (getElementById headerContainerId d)
       /\ fetchSucceeded (fetch P headerPath) = true)
  /\ (footerLoaded = true
      <-> is_Some (getElementById footerContainerId d)
          /\ fetchSucceeded (fetch P footerPath) = true).
Proof.
  unfold loadAllComponents.
  pose proof (start_resultOf headerPath headerContainerId "header" d) as Hh.
  pose proof (start_ids headerPath headerContainerId "header" d) as Hids.
  destruct (start headerPath headerContainerId "header" d) as [header d1].
  cbn [fst snd] in Hh, Hids.
  pose proof (start_resultOf footerPath footerContainerId "footer" d1) as Hf.
  rewrite (getElementById_ids _ _ _ Hids) in Hf.
  destruct (start footerPath footerContainerId "footer" d1) as [footer d2].
  cbn [fst] in Hf.
  pose proof (interleave_resultOf schedule header footer d2) as Hi.
  destruct (interleave P schedule header footer d2) as [[header' footer'] d3].
  destruct Hi as [Hi1 Hi2].
  pose proof (finish_resultOf header' d3) as Hr1.
  destruct (finish P header' d3) as [headerLoaded d4]. cbn [fst] in Hr1.
  pose proof (finish_resultOf footer' d4) as Hr2.
  destruct (finish P footer' d4) as [footerLoaded d5]. cbn [fst] in Hr2.
  subst headerLoaded footerLoaded. rewrite Hi1, Hi2. split; assumption.
Qed.

End LoadingBoth.
